(** * Travel Itinerary Planner: the weather summary and the PDF export of app.py

    A shallow embedding of [src/app.py]: the weather-code table and
    [weather_md] (with [geocode] and [get_weather]), and [render_pdf] with its
    nested [draw_block] and [write].

    Conventions.
    - A Python [str] is a list of Unicode code points ([pystr]); [str.lstrip]
      with a character set and the bullet glyph U+2022 work per code point.
    - Lengths on the page are in PDF points.  The source computes them in
      binary floating point; here they are exact rationals ([Q]).
    - The canvas [c] is the one object every drawing call mutates.  Its state
      is the ordered log of the calls made on it; each function returns the
      calls it adds, and the caller appends them in program order.
    - What the source imports and the repository does not contain (the page
      constants and [simpleSplit] of reportlab, [str.title], the clock, the
      network) is gathered in the records [Env] and [World]. *)

From Stdlib Require Import QArith Qround Lqa.
From Stdlib Require Import Ascii String DecimalString.
From stdpp Require Import base list gmap.

Local Open Scope Z_scope.

(** ** Python strings *)

Module Py.

Definition char := N.
Abbreviation pystr := (list N).

(** A literal made of ASCII characters only. *)
Definition lit (s : string) : pystr :=
  List.map N_of_ascii (list_ascii_of_string s).

Definition LF : char := 10%N.
Definition CR : char := 13%N.
Definition TAB : char := 9%N.
Definition SPACE : char := 32%N.
Definition STAR : char := 42%N.          (* '*' *)
Definition DASH : char := 45%N.          (* '-' *)
Definition HASH : char := 35%N.          (* '#' *)
Definition BULLET : char := 8226%N.      (* U+2022 *)
Definition EM_DASH : char := 8212%N.     (* U+2014 *)
Definition EN_DASH : char := 8211%N.     (* U+2013 *)
Definition DEGREE : char := 176%N.       (* U+00B0 *)
Definition WARNING_SIGN : char := 9888%N.   (* U+26A0 *)
Definition VS16 : char := 65039%N.          (* U+FE0F *)
Definition SUN_SMALL_CLOUD : char := 127780%N.  (* U+1F324 *)

(** [str.isspace] for one character: the code points CPython treats as
    whitespace, which is what [str.strip()] without argument removes. *)
Definition isspace (c : char) : bool :=
  ((9 <=? c) && (c <=? 13) || (28 <=? c) && (c <=? 32)
   || (c =? 133) || (c =? 160) || (c =? 5760)
   || (8192 <=? c) && (c <=? 8202)
   || (c =? 8232) || (c =? 8233) || (c =? 8239) || (c =? 8287)
   || (c =? 12288))%N.

(** The line boundaries of [str.splitlines]. *)
Definition islinebreak (c : char) : bool :=
  ((10 <=? c) && (c <=? 13) || (28 <=? c) && (c <=? 30)
   || (c =? 133) || (c =? 8232) || (c =? 8233))%N.

(** [s.startswith(p)] *)
Fixpoint startswith (s p : pystr) {struct p} : bool :=
  match p, s with
  | [], _ => true
  | _ :: _, [] => false
  | a :: p', b :: s' => (a =? b)%N && startswith s' p'
  end.

(** [s.startswith((p1, p2, ...))] *)
Definition startswith_any (s : pystr) (ps : list pystr) : bool :=
  existsb (startswith s) ps.

(** [s.lstrip(chars)] and [s.rstrip(chars)], the set given as a predicate. *)
Fixpoint lstrip_by (f : char -> bool) (s : pystr) : pystr :=
  match s with
  | c :: r => if f c then lstrip_by f r else s
  | [] => []
  end.

Definition rstrip_by (f : char -> bool) (s : pystr) : pystr :=
  rev (lstrip_by f (rev s)).

Definition inset (chars : pystr) (c : char) : bool :=
  existsb (N.eqb c) chars.

(** [s.lstrip(chars)] *)
Definition lstrip_chars (chars : pystr) (s : pystr) : pystr :=
  lstrip_by (inset chars) s.

(** [s.strip()] *)
Definition strip (s : pystr) : pystr :=
  rstrip_by isspace (lstrip_by isspace s).

(** [s.split("\n")]: always at least one piece. *)
Fixpoint split_nl (s : pystr) : list pystr :=
  match s with
  | [] => [[]]
  | c :: r =>
      if (c =? LF)%N then [] :: split_nl r
      else match split_nl r with
           | l :: ls => (c :: l) :: ls
           | [] => [[c]]
           end
  end.

(** [s.splitlines()]: a line ends at a line boundary, CR LF counts as one
    boundary, and no empty piece follows a final boundary. *)
Fixpoint splitlines (s : pystr) : list pystr :=
  match s with
  | [] => []
  | c :: r =>
      if islinebreak c then
        [] :: match r with
              | c' :: r' => if (c =? CR)%N && (c' =? LF)%N
                            then splitlines r' else splitlines r
              | [] => []
              end
      else match splitlines r with
           | l :: ls => (c :: l) :: ls
           | [] => [[c]]
           end
  end.

(** A line free of line boundaries. *)
Definition one_line (l : pystr) : Prop :=
  Forall (fun c => islinebreak c = false) l.

(** ["\n".join(lines)] *)
Fixpoint join_nl (lines : list pystr) : pystr :=
  match lines with
  | [] => []
  | [l] => l
  | l :: rest => l ++ LF :: join_nl rest
  end.

(** [sep.join(parts)] *)
Fixpoint join (sep : pystr) (parts : list pystr) : pystr :=
  match parts with
  | [] => []
  | [l] => l
  | l :: rest => l ++ sep ++ join sep rest
  end.

(** [s.replace(old, new)] for a non-empty [old]: the occurrences of [old]
    are found from left to right without overlap; [skip] counts the
    characters of a matched occurrence still to be passed over.
    (With an empty [old] Python inserts [new] around every character.) *)
Fixpoint replace_from (old new : pystr) (skip : nat) (s : pystr) : pystr :=
  match s with
  | [] => []
  | c :: r =>
      match skip with
      | S k => replace_from old new k r
      | O => if startswith s old
             then new ++ replace_from old new (Nat.pred (length old)) r
             else c :: replace_from old new O r
      end
  end.

Definition replace (s old new : pystr) : pystr :=
  match old with
  | [] => new ++ concat (List.map (fun c => c :: new) s)
  | _ => replace_from old new O s
  end.

(** [p in s] *)
Fixpoint contains (s p : pystr) : bool :=
  startswith s p || match s with
                    | [] => false
                    | _ :: r => contains r p
                    end.

(** [s[n:]] *)
Definition slice_from (n : nat) (s : pystr) : pystr := drop n s.

(** [x or y] on strings: the empty string is false. *)
Definition str_or (x y : pystr) : pystr :=
  match x with [] => y | _ => x end.

(** [s.title()] for a text whose letters are ASCII: a letter that follows a
    letter is made lower case, any other letter upper case.  (Other
    characters are kept and count as uncased.) *)
Definition is_upper (c : char) : bool := ((65 <=? c) && (c <=? 90))%N.
Definition is_lower (c : char) : bool := ((97 <=? c) && (c <=? 122))%N.

Fixpoint title_from (previous_is_cased : bool) (s : pystr) : pystr :=
  match s with
  | [] => []
  | c :: r =>
      if is_lower c
      then (if previous_is_cased then c else (c - 32)%N) :: title_from true r
      else if is_upper c
      then (if previous_is_cased then (c + 32)%N else c) :: title_from true r
      else c :: title_from false r
  end.

Definition title_ascii (s : pystr) : pystr := title_from false s.

(** [str(n)] for an [int]. *)
Definition str_of_int (n : Z) : pystr :=
  lit (NilEmpty.string_of_int (Z.to_int n)).

End Py.

(** ** Exceptions, JSON values and the dynamic operations used on them *)

Module Dyn.
Import Py.

(** A Python [float]: finite values as exact rationals, and the special
    values, which [json] also decodes. *)
Inductive pyfloat :=
| Finite (q : Q)
| Infinite (negative : bool)
| NaN.

(** What [r.json()] can return.  A dict is the list of its items, with
    distinct keys. *)
#[warnings="-register-all"]
Inductive json :=
| JNull
| JBool (b : bool)
| JInt (n : Z)
| JFloat (f : pyfloat)
| JStr (s : pystr)
| JList (l : list json)
| JDict (kv : list (pystr * json)).

(** Exceptions.  The first five are raised by the interpreter or by app.py
    itself; [External] is anything raised inside [requests] or by the JSON
    decoder, with its message and whether its class derives from
    [Exception] (it does not for [KeyboardInterrupt] or [SystemExit]). *)
Inductive exn :=
| ValueError (msg : pystr)
| KeyError (key : json)
| IndexError (container : json)
| TypeError (operation : pystr) (operand : json)
| AttributeError (object : json) (attribute : pystr)
| OverflowError (msg : pystr)
| External (derives_from_Exception : bool) (msg : pystr).

(** [isinstance(e, Exception)] *)
Definition is_Exception (e : exn) : bool :=
  match e with
  | External b _ => b
  | _ => true
  end.

(** A computation that returns or raises. *)
Definition result (A : Type) : Type := A + exn.

Definition ret {A} (a : A) : result A := inl a.
Definition raise {A} (e : exn) : result A := inr e.
Definition bind {A B} (m : result A) (k : A -> result B) : result B :=
  match m with
  | inl a => k a
  | inr e => inr e
  end.

Notation "'do' x <- m ; k" := (bind m (fun x => k))
  (at level 10, x name, m at level 100, k at level 200,
   format "'[v' 'do'  x  <-  m ; '/' k ']'").
Notation "'do' ' p <- m ; k" := (bind m (fun x => let 'p := x in k))
  (at level 10, p strict pattern, m at level 100, k at level 200,
   format "'[v' 'do'  ' p  <-  m ; '/' k ']'").

(** Truth value of a JSON value ([not v] is its negation). *)
Definition truthy (v : json) : bool :=
  match v with
  | JNull => false
  | JBool b => b
  | JInt n => negb (n =? 0)
  | JFloat (Finite q) => negb (Qeq_bool q 0)
  | JFloat _ => true
  | JStr s => match s with [] => false | _ => true end
  | JList l => match l with [] => false | _ => true end
  | JDict kv => match kv with [] => false | _ => true end
  end.

(** Lookup of a string key in a dict. *)
Fixpoint assoc (k : pystr) (kv : list (pystr * json)) : option json :=
  match kv with
  | [] => None
  | (k', v) :: rest => if decide (k = k') then Some v else assoc k rest
  end.

(** [v.get(k)] and [v.get(k, d)]: only a dict has the method. *)
Definition py_get (v : json) (k : pystr) (d : json) : result json :=
  match v with
  | JDict kv => ret (default d (assoc k kv))
  | _ => raise (AttributeError v (lit "get"))
  end.

(** [v[k]] with a string key. *)
Definition py_getkey (v : json) (k : pystr) : result json :=
  match v with
  | JDict kv => match assoc k kv with
                | Some x => ret x
                | None => raise (KeyError (JStr k))
                end
  | _ => raise (TypeError (lit "subscript") v)
  end.

(** [v[i]] with an index [i >= 0]. *)
Definition py_getindex (v : json) (i : nat) : result json :=
  match v with
  | JList l => match l !! i with
               | Some x => ret x
               | None => raise (IndexError v)
               end
  | JStr s => match s !! i with
              | Some c => ret (JStr [c])
              | None => raise (IndexError v)
              end
  | JDict _ => raise (KeyError (JInt (Z.of_nat i)))
  | _ => raise (TypeError (lit "subscript") v)
  end.

(** The items a [for] loop over [v] visits. *)
Definition py_iter (v : json) : result (list json) :=
  match v with
  | JList l => ret l
  | JStr s => ret (List.map (fun c => JStr [c]) s)
  | JDict kv => ret (List.map (fun p => JStr (fst p)) kv)
  | _ => raise (TypeError (lit "iter") v)
  end.

End Dyn.

(** ** The weather summary (app.py, lines 82-143) *)

Module Weather.
Import Py Dyn.

(** The dict literal [WCODE], in source order. *)
Definition WCODE_items : list (Z * pystr) :=
  [ (0, lit "Clear sky"); (1, lit "Mainly clear"); (2, lit "Partly cloudy");
    (3, lit "Overcast");
    (45, lit "Fog"); (48, lit "Depositing rime fog");
    (51, lit "Light drizzle"); (53, lit "Moderate drizzle");
    (55, lit "Dense drizzle");
    (56, lit "Freezing drizzle (light)"); (57, lit "Freezing drizzle (dense)");
    (61, lit "Light rain"); (63, lit "Moderate rain"); (65, lit "Heavy rain");
    (66, lit "Freezing rain (light)"); (67, lit "Freezing rain (heavy)");
    (71, lit "Light snowfall"); (73, lit "Moderate snowfall");
    (75, lit "Heavy snowfall");
    (77, lit "Snow grains"); (80, lit "Rain showers (slight)");
    (81, lit "Rain showers (moderate)"); (82, lit "Rain showers (violent)");
    (85, lit "Snow showers (slight)"); (86, lit "Snow showers (heavy)");
    (95, lit "Thunderstorm (slight/moderate)");
    (96, lit "Thunderstorm w/ hail (slight)");
    (99, lit "Thunderstorm w/ hail (heavy)") ].

Definition WCODE : gmap Z pystr := list_to_map WCODE_items.

Definition NA : pystr := lit "N/A".

(** The key of an [int]-keyed dict that a value is equal to, if it can be
    one: [True == 1], [3.0 == 3]; a list or a dict is not hashable. *)
Definition int_key (k : json) : result (option Z) :=
  match k with
  | JInt n => ret (Some n)
  | JBool b => ret (Some (if b then 1 else 0))
  | JFloat (Finite q) =>
      ret (if Qeq_bool q (inject_Z (Qfloor q)) then Some (Qfloor q) else None)
  | JFloat _ | JNull | JStr _ => ret None
  | JList _ | JDict _ => raise (TypeError (lit "hash") k)
  end.

(** [WCODE.get(k, d)] *)
Definition WCODE_get (k : json) (d : pystr) : result pystr :=
  do key <- int_key k;
  ret (default d (key ≫= (WCODE !!.))).

(** An HTTP response, by the two methods the source calls on it. *)
Record response := Response {
  raise_for_status : result unit;
  r_json : result json
}.

(** What the weather code reads from outside the program. *)
Record World := {
  (** [requests.get(url, params=..., timeout=10)] *)
  requests_get : pystr -> list (pystr * json) -> result response;
  (** [datetime.utcnow().date()], as [isoformat()] prints it *)
  utc_today : pystr;
  (** [(start + timedelta(days=n)).isoformat()] *)
  date_plus : Z -> result pystr;
  (** [str(v)] for a float, a list or a dict *)
  repr_other : json -> pystr;
  (** [str(e)] for an exception the interpreter raises *)
  interp_message : exn -> pystr
}.

Section WithWorld.
Context (W : World).

(** [str(v)], as an f-string field formats a value. *)
Definition py_str (v : json) : pystr :=
  match v with
  | JStr s => s
  | JInt n => str_of_int n
  | JBool b => if b then lit "True" else lit "False"
  | JNull => lit "None"
  | _ => repr_other W v
  end.

(** [str(e)] *)
Definition exn_str (e : exn) : pystr :=
  match e with
  | ValueError msg | OverflowError msg | External _ msg => msg
  | _ => interp_message W e
  end.

Definition geocode_url : pystr :=
  lit "https://geocoding-api.open-meteo.com/v1/search".
Definition forecast_url : pystr :=
  lit "https://api.open-meteo.com/v1/forecast".

(** [geocode(city)] *)
Definition geocode (city : pystr) : result (json * json * pystr) :=
  do r <- requests_get W geocode_url
            [(lit "name", JStr city); (lit "count", JInt 1)];
  do _ <- raise_for_status r;
  do j <- r_json r;
  do res <- py_get j (lit "results") JNull;
  if negb (truthy res) then raise (ValueError (lit "City not found")) else
  do results <- py_getkey j (lit "results");
  do item <- py_getindex results 0;
  do lat <- py_getkey item (lit "latitude");
  do lon <- py_getkey item (lit "longitude");
  do name <- py_getkey item (lit "name");
  do country <- py_get item (lit "country") (JStr []);
  ret (lat, lon, py_str name ++ lit ", " ++ py_str country).

(** The dict [out] of [get_weather]. *)
Record weather := {
  w_label : pystr;
  w_dates : json;
  w_tmax : json;
  w_tmin : json;
  w_pop : json;
  w_wcode : json
}.

(** [d["daily"][k]] *)
Definition daily (d : json) (k : pystr) : result json :=
  do dl <- py_getkey d (lit "daily");
  py_getkey dl k.

(** [get_weather(city, days)] *)
Definition get_weather (city : pystr) (days : Z) : result weather :=
  do '(lat, lon, label) <- geocode city;
  let start := utc_today W in
  do end_ <- date_plus W (days - 1);
  let params :=
    [ (lit "latitude", lat); (lit "longitude", lon);
      (lit "daily", JStr (lit
         "weathercode,temperature_2m_max,temperature_2m_min,precipitation_probability_max"));
      (lit "timezone", JStr (lit "auto"));
      (lit "start_date", JStr start);
      (lit "end_date", JStr end_) ] in
  do r <- requests_get W forecast_url params;
  do _ <- raise_for_status r;
  do d <- r_json r;
  do time <- daily d (lit "time");
  do tmax <- daily d (lit "temperature_2m_max");
  do tmin <- daily d (lit "temperature_2m_min");
  do pop <- daily d (lit "precipitation_probability_max");
  do wcode <- daily d (lit "weathercode");
  ret {| w_label := label; w_dates := time; w_tmax := tmax; w_tmin := tmin;
         w_pop := pop; w_wcode := wcode |}.

(** The first line of the summary. *)
Definition weather_heading (label : pystr) : pystr :=
  lit "### " ++ [SUN_SMALL_CLOUD] ++ lit " Weather " ++ [EM_DASH]
    ++ lit " " ++ label.

(** One turn of the loop of [weather_md]: the line for day [i]. *)
Definition weather_line (w : weather) (i : nat) (dt : json) : result pystr :=
  do code <- py_getindex (w_wcode w) i;
  do desc <- WCODE_get code NA;
  let dt_s := py_str dt in
  do tmin <- py_getindex (w_tmin w) i;
  do tmax <- py_getindex (w_tmax w) i;
  do pop <- py_getindex (w_pop w) i;
  ret (lit "- **" ++ dt_s ++ lit "** " ++ [EM_DASH] ++ lit " " ++ desc
       ++ lit "; **" ++ py_str tmin ++ [EN_DASH] ++ py_str tmax
       ++ [DEGREE] ++ lit "C**, "
       ++ lit "rain chance: **" ++ py_str pop ++ lit "%**").

(** [for i, dt in enumerate(w["dates"])], from index [i] on. *)
Fixpoint weather_lines (w : weather) (i : nat) (dates : list json)
  : result (list pystr) :=
  match dates with
  | [] => ret []
  | dt :: rest =>
      do l <- weather_line w i dt;
      do ls <- weather_lines w (S i) rest;
      ret (l :: ls)
  end.

(** The body of the [try]. *)
Definition weather_md_try (city : pystr) (days : Z) : result pystr :=
  do w <- get_weather city days;
  do dates <- py_iter (w_dates w);
  do ls <- weather_lines w 0 dates;
  ret (join_nl (weather_heading (w_label w) :: ls)).

Definition FETCH_FAILED : pystr :=
  [WARNING_SIGN; VS16] ++ lit " Weather fetch failed: ".

(** [weather_md(city, days)]: [except Exception as e] handles the instances
    of [Exception]; any other exception leaves the function. *)
Definition weather_md (city : pystr) (days : Z) : result pystr :=
  match weather_md_try city days with
  | inl s => ret s
  | inr e => if is_Exception e then ret (FETCH_FAILED ++ exn_str e)
             else raise e
  end.

End WithWorld.

(** A computation that may raise, but only instances of [Exception]. *)
Definition raises_only_Exception {A} (m : result A) : Prop :=
  forall e, m = raise e -> is_Exception e = true.

(** A world in which whatever [requests], the JSON decoder and the date
    arithmetic raise derives from [Exception] (as their own error classes
    and [OverflowError] do; [KeyboardInterrupt] does not). *)
Definition raises_Exceptions (W : World) : Prop :=
  (forall url ps, raises_only_Exception (requests_get W url ps))
  /\ (forall url ps r, requests_get W url ps = ret r ->
        raises_only_Exception (raise_for_status r)
        /\ raises_only_Exception (r_json r))
  /\ (forall n, raises_only_Exception (date_plus W n)).

(** *** Concrete worlds for running the model *)

Definition ok_response (j : json) : response :=
  {| raise_for_status := ret tt; r_json := ret j |}.

(** The geocoding service knows no such city: it answers with an object
    that has no ["results"]. *)
Definition world_city_not_found : World :=
  {| requests_get := fun _ _ =>
       ret (ok_response (JDict [(lit "generationtime_ms", JInt 1)]));
     utc_today := lit "2026-11-04";
     date_plus := fun _ => ret (lit "2026-11-06");
     repr_other := fun _ => lit "?";
     interp_message := fun _ => lit "?" |}.

(** The network is down. *)
Definition world_offline : World :=
  {| requests_get := fun _ _ => raise (External true (lit "Connection refused"));
     utc_today := lit "2026-11-04";
     date_plus := fun _ => ret (lit "2026-11-06");
     repr_other := fun _ => lit "?";
     interp_message := fun _ => lit "?" |}.

(** Both services answer; the forecast has two days, the second with a
    weather code that is not in the table. *)
Definition world_two_days : World :=
  {| requests_get := fun url _ =>
       if decide (url = lit "https://geocoding-api.open-meteo.com/v1/search")
       then ret (ok_response (JDict [(lit "results", JList [JDict
              [(lit "name", JStr (lit "Pune")); (lit "latitude", JInt 18);
               (lit "longitude", JInt 73); (lit "country", JStr (lit "India"))]])]))
       else ret (ok_response (JDict [(lit "daily", JDict
              [(lit "time", JList [JStr (lit "2026-11-04"); JStr (lit "2026-11-05")]);
               (lit "temperature_2m_max", JList [JInt 31; JInt 30]);
               (lit "temperature_2m_min", JList [JInt 19; JInt 18]);
               (lit "precipitation_probability_max", JList [JInt 0; JInt 5]);
               (lit "weathercode", JList [JInt 2; JInt 4])])]));
     utc_today := lit "2026-11-04";
     date_plus := fun _ => ret (lit "2026-11-05");
     repr_other := fun _ => lit "?";
     interp_message := fun _ => lit "?" |}.

End Weather.

(** ** The PDF export (app.py, lines 148-199) *)

Module Pdf.
Import Py.
Local Open Scope Q_scope.

(** The calls the source makes on the canvas. *)
Inductive op :=
| setTitle (title : pystr)
| setFont (name : pystr) (size : Q)
| drawString (x y : Q) (text : pystr)
| showPage
| save.

(** What [render_pdf] uses and the repository does not define. *)
Record Env := {
  (** [reportlab.lib.units.cm], in points *)
  cm : Q;
  (** [reportlab.lib.pagesizes.A4]: (width, height) *)
  A4 : Q * Q;
  (** [reportlab.lib.utils.simpleSplit(text, fontName, fontSize, maxWidth)] *)
  simpleSplit : pystr -> pystr -> Q -> Q -> list pystr;
  (** [str.title] *)
  title_case : pystr -> pystr
}.

(** [x < y] on lengths. *)
Definition Qltb (x y : Q) : bool := negb (Qle_bool y x).

Definition Helvetica : pystr := lit "Helvetica".
Definition Helvetica_Bold : pystr := lit "Helvetica-Bold".

(** The test of line 163 and the rewriting of line 164. *)
Definition is_bullet_line (ln : pystr) : bool :=
  startswith_any (strip ln) [[STAR]; [DASH]; [BULLET]].

Definition bullet_line (ln : pystr) : pystr :=
  [BULLET; SPACE] ++ strip (lstrip_chars [STAR; DASH; BULLET; SPACE] ln).

(** The line [write] hands to [simpleSplit]. *)
Definition prepare_line (bullet : bool) (ln : pystr) : pystr :=
  if bullet && is_bullet_line ln then bullet_line ln else ln.

(** [weather_text.replace("### ", "")] (line 186) *)
Definition weather_body (weather_text : pystr) : pystr :=
  replace weather_text (lit "### ") [].

(** The four tests of lines 190-193 on one line, in order. *)
Definition strip_heading (ln : pystr) : pystr :=
  let ln := if startswith ln (lit "### ") then slice_from 4 ln else ln in
  let ln := if startswith ln (lit "## ") then slice_from 3 ln else ln in
  let ln := if startswith ln (lit "# ") then slice_from 2 ln else ln in
  let ln := if startswith ln (lit "# ") then slice_from 1 ln else ln in
  ln.

(** A line that still begins with one of the three heading markers. *)
Definition starts_with_marker (ln : pystr) : bool :=
  startswith ln (lit "### ") || startswith ln (lit "## ")
  || startswith ln (lit "# ").

(** The rule as the specification words it (4.4, step 2, and the design
    note): an ordered table of prefixes, the longest first, and the first
    that matches the start of the text is removed, once. *)
Definition spec_strip_leading (s : pystr) : pystr :=
  if startswith s (lit "### ") then slice_from 4 s
  else if startswith s (lit "## ") then slice_from 3 s
  else if startswith s (lit "# ") then slice_from 2 s
  else s.

(** The list [norm] of lines 188-194. *)
Definition norm (itinerary_md : pystr) : list pystr :=
  List.map strip_heading (splitlines itinerary_md).

(** ["\n".join(norm)], the body of the Itinerary block. *)
Definition itinerary_body (itinerary_md : pystr) : pystr :=
  join_nl (norm itinerary_md).

(** [interests_text or "—"] (line 185) *)
Definition interests_body (interests_text : pystr) : pystr :=
  str_or interests_text [EM_DASH].

Section WithEnv.
Context (E : Env).

Definition width : Q := fst (A4 E).
Definition height : Q := snd (A4 E).
Definition left : Q := 2 * cm E.
Definition right : Q := width - 2 * cm E.
Definition top : Q := height - 2 * cm E.
Definition bottom : Q := 2 * cm E.
Definition line_h : Q := 14.

Section DrawBlock.
Context (font : pystr) (size : Q) (bullet : bool).

Definition maxw : Q := right - left.

(** One turn of the inner loop (lines 166-169): the cursor after the
    segment, and the canvas calls made for it. *)
Definition write_seg (y0 : Q) (seg : pystr) : Q * list op :=
  let y0 := y0 - line_h in
  if Qltb y0 (2 * cm E)
  then (top, [showPage; setFont font size; drawString left top seg])
  else (y0, [drawString left y0 seg]).

(** The inner loop over the segments of one line. *)
Fixpoint write_segs (segs : list pystr) (y0 : Q) : Q * list op :=
  match segs with
  | [] => (y0, [])
  | seg :: rest =>
      let r1 := write_seg y0 seg in
      let r2 := write_segs rest (fst r1) in
      (fst r2, snd r1 ++ snd r2)
  end.

(** The segments [simpleSplit] makes of one line of the body. *)
Definition segments (ln : pystr) : list pystr :=
  simpleSplit E (prepare_line bullet ln) font size maxw.

(** The outer loop over the lines of the body. *)
Fixpoint write_lines (lns : list pystr) (y0 : Q) : Q * list op :=
  match lns with
  | [] => (y0, [])
  | ln :: rest =>
      let r1 := write_segs (segments ln) y0 in
      let r2 := write_lines rest (fst r1) in
      (fst r2, snd r1 ++ snd r2)
  end.

(** [write(txt, y0)] *)
Definition write (txt : pystr) (y0 : Q) : Q * list op :=
  write_lines (split_nl txt) y0.

(** [draw_block(title, body, y, font, size, bullet)] *)
Definition draw_block (title body : pystr) (y : Q) : Q * list op :=
  let head := [setFont Helvetica_Bold 12; drawString left y title] in
  let y := y - 12 in
  let r := write body y in
  (fst r - 8, head ++ setFont font size :: snd r).

(** The three calls [draw_block] makes before it writes the body. *)
Definition block_head (title : pystr) (y : Q) : list op :=
  [setFont Helvetica_Bold 12; drawString left y title; setFont font size].

End DrawBlock.

(** The two lines at the top of the first page (lines 175-182). *)
Definition doc_title (city : pystr) (days : Z) : pystr :=
  city ++ lit " " ++ [EM_DASH] ++ lit " " ++ str_of_int days
    ++ lit "-Day Itinerary".

Definition page_title (city : pystr) (days : Z) : pystr :=
  title_case E city ++ lit " " ++ [EM_DASH] ++ lit " " ++ str_of_int days
    ++ lit "-Day Itinerary".

Definition generated_line (now : pystr) : pystr := lit "Generated: " ++ now.

Definition header (city : pystr) (days : Z) (now : pystr) : list op :=
  [ setTitle (doc_title city days);
    setFont Helvetica_Bold 16;
    drawString left top (page_title city days);
    setFont Helvetica 10;
    drawString left (top - 18) (generated_line now) ].

(** [render_pdf(city, days, interests_text, itinerary_md, weather_text)].
    [now] is the value of [datetime.now().strftime('%d %b %Y, %I:%M %p')]
    at line 181.  The result is the log of the canvas when [c.save()]
    returns, which reportlab serialises into the bytes of [buf]. *)
Definition render_pdf (city : pystr) (days : Z)
    (interests_text itinerary_md weather_text : pystr) (now : pystr)
  : list op :=
  let y := top - 18 - 12 in
  let b1 := draw_block Helvetica 11 false
              (lit "Interests") (interests_body interests_text) y in
  let b2 := draw_block Helvetica 11 false
              (lit "Weather") (weather_body weather_text) (fst b1) in
  let b3 := draw_block Helvetica 11 true
              (lit "Itinerary") (itinerary_body itinerary_md) (fst b2) in
  header city days now ++ snd b1 ++ snd b2 ++ snd b3 ++ [showPage; save].

End WithEnv.

(** *** Reading a canvas log page by page *)

(** Where the last string of the current page was drawn; [Fresh] on a page
    with no string yet. *)
Inductive pstate :=
| Fresh
| At (y : Q).

(** One canvas call seen by a reader that accepts: on a fresh page a string
    at [top] only, otherwise a string no higher than the previous one, and
    a page break only after a string. *)
Definition page_step (top : Q) (st : pstate) (o : op) : option pstate :=
  match o with
  | drawString _ y _ =>
      match st with
      | Fresh => if Qeq_bool y top then Some (At y) else None
      | At p => if Qle_bool y p then Some (At y) else None
      end
  | showPage => match st with Fresh => None | At _ => Some Fresh end
  | _ => Some st
  end.

Fixpoint page_run (top : Q) (st : pstate) (log : list op) : option pstate :=
  match log with
  | [] => Some st
  | o :: rest =>
      match page_step top st o with
      | Some st' => page_run top st' rest
      | None => None
      end
  end.

(** Reading [log] on from a string drawn at [p] goes through and ends on a
    page whose last string is not below the cursor [y]. *)
Definition tracks (t : Q) (y : Q) (log : list op) (p : Q) : Prop :=
  exists p', page_run t (At p) log = Some (At p') /\ y <= p'.

(** Every string of a log is at or above [b]. *)
Definition above (b : Q) (o : op) : bool :=
  match o with
  | drawString _ y _ => Qle_bool b y
  | _ => true
  end.

(** *** A concrete environment for running the model *)

(** Modelled from the spec: the page of section 6, 21.0 cm by 29.7 cm with
    margins of 2 cm, in points of 1/72 inch (1 cm = 72/2.54 points), which
    are the values of reportlab's [cm] and [A4]. *)
Definition cm_pt : Q := 3600 # 127.
Definition A4_pt : Q * Q := (75600 # 127, 106920 # 127).

(** Modelled from the spec: the Text Wrapper of section 4.1 on bodies whose
    lines are short, not empty, and have single spaces between their
    words: such a line fits the content width and is its own only
    segment. *)
Definition one_segment (text font : pystr) (size maxw : Q) : list pystr :=
  [text].

Definition env0 : Env :=
  {| cm := cm_pt; A4 := A4_pt; simpleSplit := one_segment;
     title_case := title_ascii |}.

(** Forty-nine one-word lines of interests, and the call made with them. *)
Definition long_interests : pystr := join_nl (repeat (lit "a") 49).

Definition long_run : list op :=
  render_pdf env0 (lit "x") 1 long_interests (lit "i") (lit "w") (lit "now").

(** An itinerary of two lines. *)
Definition two_lines : pystr := lit "## Day 1" ++ [LF] ++ lit "* go".

End Pdf.

(** ** Requests and days of the weather summary *)

Module WeatherShape.
Import Py Dyn Weather.

(** The request [geocode] makes (line 98). *)
Definition geocode_request (W : World) (city : pystr) : result response :=
  requests_get W geocode_url [(lit "name", JStr city); (lit "count", JInt 1)].

(** Day [i] has the four values the loop of [weather_md] indexes. *)
Definition day_is_complete (w : weather) (i : nat) : Prop :=
  (exists v, py_getindex (w_wcode w) i = ret v)
  /\ (exists v, py_getindex (w_tmin w) i = ret v)
  /\ (exists v, py_getindex (w_tmax w) i = ret v)
  /\ (exists v, py_getindex (w_pop w) i = ret v).

(** The geocoding service answers with a result that has no latitude. *)
Definition world_no_latitude : World :=
  {| requests_get := fun _ _ =>
       ret (ok_response (JDict [(lit "results", JList [JDict
              [(lit "name", JStr (lit "Pune"))]])]));
     utc_today := lit "2026-11-04";
     date_plus := fun _ => ret (lit "2026-11-05");
     repr_other := fun _ => lit "?";
     interp_message := fun _ => lit "?" |}.

End WeatherShape.

(** ** Reading a canvas log: texts, fonts and positions *)

Module Layout.
Import Py Pdf.
Local Open Scope Q_scope.

(** The strings of a log, in the order they are drawn. *)
Definition texts (log : list op) : list pystr :=
  omap (fun o => match o with drawString _ _ t => Some t | _ => None end) log.

(** The segments a whole body is split into, line after line. *)
Definition body_segments (E : Env) (font : pystr) (size : Q) (bullet : bool)
    (body : pystr) : list pystr :=
  concat (List.map (segments E font size bullet) (split_nl body)).

(** A reader that knows whether a font has been set on the current page: a
    page break forgets the font, and a string needs one. *)
Definition font_step (set : bool) (o : op) : option bool :=
  match o with
  | setFont _ _ => Some true
  | showPage => Some false
  | drawString _ _ _ => if set then Some true else None
  | _ => Some set
  end.

Fixpoint font_run (set : bool) (log : list op) : option bool :=
  match log with
  | [] => Some set
  | o :: rest =>
      match font_step set o with
      | Some set' => font_run set' rest
      | None => None
      end
  end.

(** A string at the left margin [x0] with [lo <= y <= hi]; other calls
    pass. *)
Definition placed (x0 lo hi : Q) (o : op) : Prop :=
  match o with
  | drawString x y _ => x = x0 /\ lo <= y /\ y <= hi
  | _ => True
  end.

(** The segments of the three bodies of a document. *)
Definition document_segments (E : Env)
    (interests_text itinerary_md weather_text : pystr) : nat :=
  (length (body_segments E Helvetica 11 false (interests_body interests_text))
   + length (body_segments E Helvetica 11 false (weather_body weather_text))
   + length (body_segments E Helvetica 11 true (itinerary_body itinerary_md)))%nat.

(** A text that is empty, or begins with a character that is neither a
    bullet marker, nor a space, nor other white space. *)
Definition plain_text (rest : pystr) : Prop :=
  match rest with
  | [] => True
  | c :: _ => inset [STAR; DASH; BULLET; SPACE] c = false /\ isspace c = false
  end.

(** The number of page breaks in a log. *)
Definition page_breaks (log : list op) : nat :=
  length (List.filter (fun o => match o with showPage => true | _ => false end)
            log).

End Layout.

(** ** The page (app.py, lines 71-77 and 218-264) *)

Module App.
Import Py Dyn Weather Pdf.

Definition COMMA : char := 44%N.
Definition UNDERSCORE : char := 95%N.
Definition CALENDAR : char := 128197%N.     (* U+1F4C5 *)
Definition DOWN_ARROW : char := 11015%N.    (* U+2B07 *)

(** [s.split(sep)] for a separator of one character. *)
Fixpoint split_char (sep : char) (s : pystr) : list pystr :=
  match s with
  | [] => [[]]
  | c :: r =>
      if (c =? sep)%N then [] :: split_char sep r
      else match split_char sep r with
           | l :: ls => (c :: l) :: ls
           | [] => [[c]]
           end
  end.

(** Truth value of a string. *)
Definition nonempty (s : pystr) : bool :=
  match s with [] => false | _ => true end.

(** [[s.strip() for s in interests_csv.split(",") if s.strip()]] (line 228) *)
Definition parse_interests (interests_csv : pystr) : list pystr :=
  List.map strip
    (List.filter (fun s => nonempty (strip s)) (split_char COMMA interests_csv)).

(** The [interests] argument of the prompt (line 74). *)
Definition DEFAULT_INTERESTS : pystr :=
  lit "general sightseeing, food, culture".

Definition prompt_interests (interests : list pystr) : pystr :=
  match interests with
  | [] => DEFAULT_INTERESTS
  | _ => join (lit ", ") interests
  end.

(** The system message of [PROMPT] with its three fields filled. *)
Definition system_message (city interests : pystr) (days : Z) : pystr :=
  lit "You are a meticulous travel assistant. Create a " ++ str_of_int days
  ++ lit "-day itinerary for " ++ city ++ lit " "
  ++ lit "based on these interests: " ++ interests ++ lit ". "
  ++ lit "Rules:" ++ [LF]
  ++ lit "- Output in Markdown with headings '## Day 1', '## Day 2', ..."
  ++ [LF]
  ++ lit "- 4" ++ [EN_DASH]
  ++ lit "6 bullet points per day with time hints (e.g., 9:00 AM "
  ++ [EM_DASH] ++ lit " Gateway of India)" ++ [LF]
  ++ lit "- Keep it realistic (nearby places on the same day)" ++ [LF]
  ++ lit "- Include short local food suggestions and commute notes where helpful."
  ++ [LF].

(** What the page needs beside the weather world and the PDF environment:
    the model behind [llm.invoke(msg).content], given the (role, text)
    messages; the stamp of [render_pdf]; and [str.lower]. *)
Record Services := {
  llm_invoke : list (pystr * pystr) -> result pystr;
  world : World;
  env : Env;
  clock : pystr;
  lower : pystr -> pystr
}.

(** What the page puts on the screen. *)
Inductive widget :=
| sidebar_error (msg : pystr)
| markdown (column : nat) (body : pystr)
| info (column : nat) (msg : pystr)
| download_button (label : pystr) (data : list op) (file_name mime : pystr).

Section WithServices.
Context (SV : Services).

(** [make_itinerary(city, interests, days)] *)
Definition make_itinerary (city : pystr) (interests : list pystr) (days : Z)
  : result pystr :=
  llm_invoke SV
    [ (lit "system", system_message city (prompt_interests interests) days);
      (lit "human", lit "Plan my trip.") ].

Definition ITINERARY_HEADING : pystr := lit "#### " ++ [CALENDAR] ++ lit " Itinerary".
Definition WEATHER_HEADING : pystr :=
  lit "#### " ++ [SUN_SMALL_CLOUD] ++ lit " Weather".

(** The two columns when nothing has been generated (lines 221-226 and
    259-264). *)
Definition idle_columns : list widget :=
  [ markdown 1 ITINERARY_HEADING;
    info 1 (lit "Fill inputs in the sidebar and click **Generate Plan**.");
    markdown 2 WEATHER_HEADING;
    info 2 (lit "Weather will appear here after generation.") ].

(** The test of line 239. *)
Definition FETCH_FAILED_SHOWN : pystr :=
  [WARNING_SIGN; VS16] ++ lit " Weather fetch failed".

Definition weather_column (wtext : pystr) : list widget :=
  if negb (startswith wtext FETCH_FAILED_SHOWN)
  then [ markdown 2 WEATHER_HEADING;
         markdown 2 (lit "<div class='card small'>" ++ wtext ++ lit "</div>") ]
  else [ markdown 2 WEATHER_HEADING;
         info 2 (lit "Weather data could not be fetched for this city.") ].

(** The file name of line 250. *)
Definition file_name_of (city : pystr) (days : Z) : pystr :=
  lit "itinerary_"
  ++ lower SV (replace (strip city) [SPACE] [UNDERSCORE])
  ++ lit "_" ++ str_of_int days ++ lit "d.pdf".

(** The block under [if go:] (lines 218-264), with the values of the three
    sidebar inputs and of the button. *)
Definition page (go : bool) (city interests_csv : pystr) (days : Z)
  : result (list widget) :=
  if go then
    if negb (nonempty (strip city)) then
      ret (sidebar_error
             (lit "Please fill the City field before generating a plan.")
           :: idle_columns)
    else
      let interests := parse_interests interests_csv in
      do itinerary <- make_itinerary (strip city) interests days;
      do wtext <- weather_md (world SV) (strip city) days;
      let pdf_bytes :=
        render_pdf (env SV) (strip city) days (join (lit ", ") interests)
          itinerary wtext (clock SV) in
      ret ([ markdown 1 ITINERARY_HEADING;
             markdown 1 (lit "<div class='card'>" ++ itinerary ++ lit "</div>") ]
           ++ weather_column wtext
           ++ [ download_button ([DOWN_ARROW; VS16] ++ lit " Download PDF")
                  pdf_bytes (file_name_of city days)
                  (lit "application/pdf") ])
  else ret idle_columns.

End WithServices.

(** [str.lower] on a text whose letters are ASCII. *)
Definition lower_ascii (s : pystr) : pystr :=
  List.map (fun c => if is_upper c then (c + 32)%N else c) s.

(** *** Concrete services for running the model *)

Definition services0 : Services :=
  {| llm_invoke := fun _ => ret (lit "## Day 1" ++ [LF] ++ lit "* Louvre");
     world := world_city_not_found;
     env := env0;
     clock := lit "04 Nov 2026, 10:00 AM";
     lower := lower_ascii |}.

Definition services_two_days : Services :=
  {| llm_invoke := fun _ => ret (lit "## Day 1" ++ [LF] ++ lit "* Fort");
     world := world_two_days;
     env := env0;
     clock := lit "04 Nov 2026, 10:00 AM";
     lower := lower_ascii |}.

End App.

(** * Properties *)

(** ** Python strings *)

Section PyFacts.
Import Py.

Lemma startswith_app (p r : pystr) : startswith (p ++ r) p = true.
Proof.
  induction p as [|a p IH]; simpl; [done|].
  by rewrite N.eqb_refl, IH.
Qed.

Lemma splitlines_one_line (l : pystr) :
  one_line l -> l <> [] -> splitlines l = [l].
Proof.
  induction l as [|c l IH]; intros Hl Hne; [done|].
  inversion Hl as [|? ? Hc Hl']; subst. simpl. rewrite Hc.
  destruct l as [|c' l']; [done|].
  by rewrite IH.
Qed.

Lemma splitlines_line_LF (l r : pystr) :
  one_line l -> splitlines (l ++ LF :: r) = l :: splitlines r.
Proof.
  induction l as [|c l IH]; intros Hl.
  - simpl. by destruct r.
  - inversion Hl as [|? ? Hc Hl']; subst.
    change ((c :: l) ++ LF :: r) with (c :: (l ++ LF :: r)).
    simpl. rewrite Hc. by rewrite IH.
Qed.

Lemma splitlines_join_nl (ls : list pystr) :
  Forall one_line ls -> last ls <> Some [] ->
  splitlines (join_nl ls) = ls.
Proof.
  induction ls as [|l ls IH]; intros Hls Hlast; [done|].
  inversion Hls as [|? ? Hl Hls']; subst.
  destruct ls as [|l2 ls].
  - simpl. apply splitlines_one_line; [done|].
    intros ->. by apply Hlast.
  - change (join_nl (l :: l2 :: ls)) with (l ++ LF :: join_nl (l2 :: ls)).
    rewrite splitlines_line_LF by done.
    f_equal. apply IH; [done|]. by rewrite last_cons_cons in Hlast.
Qed.

Lemma splitlines_lines_upto (n : nat) (s : pystr) :
  (length s <= n)%nat -> Forall one_line (splitlines s).
Proof.
  revert s; induction n as [|n IH]; intros s Hn.
  - destruct s; [constructor | simpl in Hn; lia].
  - destruct s as [|c r]; simpl; [constructor|]. simpl in Hn.
    assert (Hr : Forall one_line (splitlines r)) by (apply IH; lia).
    destruct (islinebreak c) eqn:Hc.
    + constructor; [constructor|].
      destruct r as [|c' r']; [constructor|].
      destruct ((c =? CR)%N && (c' =? LF)%N); [|done].
      apply IH. simpl in Hn. lia.
    + destruct (splitlines r) as [|l ls].
      * by repeat constructor.
      * inversion Hr; subst. constructor; [by constructor | done].
Qed.

Lemma splitlines_lines (s : pystr) : Forall one_line (splitlines s).
Proof. by apply (splitlines_lines_upto (length s)). Qed.

Lemma one_line_drop (n : nat) (l : pystr) : one_line l -> one_line (drop n l).
Proof. apply Forall_drop. Qed.

End PyFacts.

(** ** Heading markers (app.py, lines 186-194) *)

Section Headings.
Import Py Pdf.

Lemma strip_heading_clean (l : pystr) :
  starts_with_marker l = false -> strip_heading l = l.
Proof.
  unfold starts_with_marker, strip_heading. intros H.
  apply orb_false_iff in H as [H H1]. apply orb_false_iff in H as [H3 H2].
  cbv zeta. rewrite H3; cbv iota. rewrite H2; cbv iota.
  rewrite H1; cbv iota. by rewrite H1.
Qed.

Lemma strip_heading_one_line (l : pystr) :
  one_line l -> one_line (strip_heading l).
Proof.
  intros Hl. unfold strip_heading, slice_from.
  repeat (case_match; try apply one_line_drop); done.
Qed.

(** All four tests can fire on one line, and the fourth removes the hash
    and leaves the space. *)
Example strip_heading_four_tests :
  strip_heading (lit "### ## # x") = lit "x"
  /\ strip_heading (lit "# # x") = lit " x"
  /\ strip_heading (lit "## Day 1") = lit "Day 1"
  /\ strip_heading (lit "#hashtag") = lit "#hashtag".
Proof. by vm_compute. Qed.

Lemma norm_lines (s : pystr) : Forall one_line (norm s).
Proof.
  unfold norm. apply List.Forall_map.
  eapply Forall_impl; [apply splitlines_lines|].
  apply strip_heading_one_line.
Qed.

(** C3, as amended.  A second heading strip changes nothing when the first
    one left no line that still begins with a marker and its last line is
    not empty (so that the joined text does not end with a line break). *)
Theorem heading_strip_idempotent_on_clean_output (s : pystr) :
  Forall (fun l => starts_with_marker l = false) (norm s) ->
  last (norm s) <> Some [] ->
  itinerary_body (itinerary_body s) = itinerary_body s.
Proof.
  intros Hclean Hlast. unfold itinerary_body at 1 3.
  f_equal. unfold norm at 1. unfold itinerary_body.
  rewrite splitlines_join_nl; [| apply norm_lines | done].
  clear Hlast. induction Hclean as [|l ls Hl _ IH]; [done|].
  simpl. by rewrite strip_heading_clean, IH.
Qed.

Lemma heading_strip_idempotent_on_clean_output_witness :
  Forall (fun l => starts_with_marker l = false) (norm two_lines)
  /\ last (norm two_lines) <> Some []
  /\ itinerary_body (itinerary_body two_lines) = itinerary_body two_lines.
Proof.
  set (s := two_lines).
  assert (H1 : Forall (fun l => starts_with_marker l = false) (norm s))
    by (vm_compute; repeat constructor).
  assert (H2 : last (norm s) <> Some []) by (vm_compute; discriminate).
  split; [exact H1|]. split; [exact H2|].
  exact (heading_strip_idempotent_on_clean_output s H1 H2).
Defined.

(** C3 as stated fails: a marker uncovered by the first strip is removed by
    the second, and a text ending with an empty line loses one line break
    at each application. *)
Lemma heading_strip_not_idempotent :
  itinerary_body (itinerary_body (lit "# ## x")) <> itinerary_body (lit "# ## x")
  /\ itinerary_body (itinerary_body (lit "Day 1" ++ [LF; LF]))
     <> itinerary_body (lit "Day 1" ++ [LF; LF]).
Proof. split; vm_compute; discriminate. Qed.

End Headings.

(** ** The Weather body (app.py, line 186) *)

Section WeatherBody.
Import Py Pdf.

Let H3 : pystr := lit "### ".

Lemma weather_body_marker (s : pystr) :
  weather_body (H3 ++ s) = weather_body s.
Proof. by destruct s. Qed.

Lemma weather_body_other (c : char) (s : pystr) :
  startswith (c :: s) H3 = false ->
  weather_body (c :: s) = c :: weather_body s.
Proof.
  intros H. unfold weather_body, replace. simpl lit. cbv iota.
  change (replace_from (lit "### ") [] 0 (c :: s)) with
    (if startswith (c :: s) H3
     then [] ++ replace_from H3 [] (Nat.pred (length H3)) s
     else c :: replace_from H3 [] 0 s).
  by rewrite H.
Qed.

(** No occurrence of the marker can begin before the end of a text that
    does not start with it and run into a marker that follows. *)
Lemma no_straddle (a b : pystr) :
  a <> [] -> startswith a H3 = false -> startswith (a ++ H3 ++ b) H3 = false.
Proof.
  intros Hne H.
  destruct a as [|c1 [|c2 [|c3 [|c4 a]]]]; [done|..]; simpl in *;
    rewrite ?andb_false_r; done.
Qed.

Lemma contains_cons (c : char) (s p : pystr) :
  contains (c :: s) p = false ->
  startswith (c :: s) p = false /\ contains s p = false.
Proof. simpl. intros H. by apply orb_false_iff in H. Qed.

Lemma weather_body_unchanged (a : pystr) :
  contains a H3 = false -> weather_body a = a.
Proof.
  induction a as [|c a IH]; intros H; [done|].
  apply contains_cons in H as [Hs Hc].
  by rewrite weather_body_other, IH.
Qed.

Lemma weather_body_first_marker (a b : pystr) :
  contains a H3 = false ->
  weather_body (a ++ H3 ++ b) = a ++ weather_body b.
Proof.
  induction a as [|c a IH]; intros H.
  - apply weather_body_marker.
  - apply contains_cons in H as [Hs Hc].
    change ((c :: a) ++ H3 ++ b) with (c :: (a ++ H3 ++ b)).
    rewrite weather_body_other.
    + by rewrite IH.
    + by apply (no_straddle (c :: a) b).
Qed.

(** C2, as amended.  The Weather body is the weather text with the
    occurrences of the four characters ["### "] removed, wherever they are:
    a text without the sequence is unchanged (so a leading ["# "] or ["## "]
    stays), and the first occurrence is removed at whatever position it
    stands, the rest of the text being treated in the same way. *)
Theorem weather_body_removes_every_h3 (a b : pystr) :
  contains a (lit "### ") = false ->
  weather_body a = a
  /\ weather_body (a ++ lit "### " ++ b) = a ++ weather_body b.
Proof.
  intros H. split.
  - by apply weather_body_unchanged.
  - by apply weather_body_first_marker.
Qed.

Lemma weather_body_removes_every_h3_witness :
  contains (lit "Rain ") (lit "### ") = false
  /\ weather_body (lit "Rain ") = lit "Rain "
  /\ weather_body (lit "Rain " ++ lit "### " ++ lit "later")
     = lit "Rain " ++ weather_body (lit "later").
Proof.
  split; [reflexivity|].
  apply (weather_body_removes_every_h3 (lit "Rain ") (lit "later")).
  reflexivity.
Defined.

(** C2 as stated fails: a leading ["## "] is kept, and a marker in the
    middle of the text is removed. *)
Lemma weather_body_is_not_leading_strip :
  weather_body (lit "## Forecast") <> spec_strip_leading (lit "## Forecast")
  /\ weather_body (lit "Rain ### later")
     <> spec_strip_leading (lit "Rain ### later").
Proof. split; vm_compute; discriminate. Qed.

End WeatherBody.

(** ** Pagination (app.py, lines 156-195) *)

Section Pagination.
Import Py Pdf.
Local Open Scope Q_scope.

Lemma Qltb_true (x y : Q) : Qltb x y = true <-> x < y.
Proof.
  unfold Qltb. rewrite negb_true_iff, <- not_true_iff_false, Qle_bool_iff.
  split; [apply Qnot_le_lt | apply Qlt_not_le].
Qed.

Lemma Qltb_false (x y : Q) : Qltb x y = false <-> y <= x.
Proof. unfold Qltb. by rewrite negb_false_iff, Qle_bool_iff. Qed.

Lemma page_run_app (t : Q) (st : pstate) (l1 l2 : list op) :
  page_run t st (l1 ++ l2)
  = match page_run t st l1 with
    | Some st' => page_run t st' l2
    | None => None
    end.
Proof.
  revert st; induction l1 as [|o l1 IH]; intros st; simpl; [done|].
  by destruct (page_step t st o).
Qed.

Context (E : Env).

Lemma tracks_app (y1 y2 : Q) (l1 l2 : list op) (p : Q) :
  tracks (top E) y1 l1 p ->
  (forall p1, y1 <= p1 -> tracks (top E) y2 l2 p1) ->
  tracks (top E) y2 (l1 ++ l2) p.
Proof.
  intros (p1 & H1 & Hy1) H2.
  destruct (H2 p1 Hy1) as (p2 & H2' & Hy2).
  exists p2. by rewrite page_run_app, H1.
Qed.

Section Block.
Context (font : pystr) (size : Q) (bullet : bool).

Lemma write_seg_tracks (y0 p : Q) (seg : pystr) :
  y0 <= p ->
  tracks (top E) (fst (write_seg E font size y0 seg))
         (snd (write_seg E font size y0 seg)) p.
Proof.
  intros Hy. unfold write_seg, tracks.
  destruct (Qltb (y0 - line_h) (2 * cm E)) eqn:Hb; simpl.
  - rewrite Qeq_bool_refl. exists (top E). split; [done | apply Qle_refl].
  - assert (Hle : Qle_bool (y0 - line_h) p = true).
    { apply Qle_bool_iff. unfold line_h. lra. }
    rewrite Hle. exists (y0 - line_h). split; [done | apply Qle_refl].
Qed.

Lemma write_segs_tracks (segs : list pystr) (y0 p : Q) :
  y0 <= p ->
  tracks (top E) (fst (write_segs E font size segs y0))
         (snd (write_segs E font size segs y0)) p.
Proof.
  revert y0 p; induction segs as [|seg segs IH]; intros y0 p Hy; simpl.
  - exists p. by split.
  - eapply tracks_app; [by apply write_seg_tracks|].
    intros p1 Hp1. by apply IH.
Qed.

Lemma write_lines_tracks (lns : list pystr) (y0 p : Q) :
  y0 <= p ->
  tracks (top E) (fst (write_lines E font size bullet lns y0))
         (snd (write_lines E font size bullet lns y0)) p.
Proof.
  revert y0 p; induction lns as [|ln lns IH]; intros y0 p Hy; simpl.
  - exists p. by split.
  - eapply tracks_app; [by apply write_segs_tracks|].
    intros p1 Hp1. by apply IH.
Qed.

Lemma draw_block_tracks (title body : pystr) (y p : Q) :
  y <= p ->
  tracks (top E) (fst (draw_block E font size bullet title body y))
         (snd (draw_block E font size bullet title body y)) p.
Proof.
  intros Hy. unfold draw_block, write.
  destruct (write_lines_tracks (split_nl body) (y - 12) y) as (p' & Hp' & Hle);
    [lra|].
  exists p'. split; [|simpl; lra].
  simpl. apply Qle_bool_iff in Hy. by rewrite Hy.
Qed.

(** Body segments are drawn at or above the bottom margin. *)
Lemma write_seg_above (y0 : Q) (seg : pystr) :
  bottom E <= top E ->
  Forall (fun o => above (bottom E) o = true)
         (snd (write_seg E font size y0 seg)).
Proof.
  intros Hgeo. unfold write_seg.
  destruct (Qltb (y0 - line_h) (2 * cm E)) eqn:Hb; simpl.
  - repeat constructor. simpl. by apply Qle_bool_iff.
  - repeat constructor. simpl. apply Qle_bool_iff. by apply Qltb_false.
Qed.

Lemma write_segs_above (segs : list pystr) (y0 : Q) :
  bottom E <= top E ->
  Forall (fun o => above (bottom E) o = true)
         (snd (write_segs E font size segs y0)).
Proof.
  intros Hgeo. revert y0; induction segs as [|seg segs IH]; intros y0; simpl.
  - constructor.
  - apply Forall_app. split; [by apply write_seg_above | apply IH].
Qed.

Lemma write_lines_above (lns : list pystr) (y0 : Q) :
  bottom E <= top E ->
  Forall (fun o => above (bottom E) o = true)
         (snd (write_lines E font size bullet lns y0)).
Proof.
  intros Hgeo. revert y0; induction lns as [|ln lns IH]; intros y0; simpl.
  - constructor.
  - apply Forall_app. split; [by apply write_segs_above | apply IH].
Qed.

End Block.

Lemma render_pdf_pages (city : pystr) (days : Z)
    (interests_text itinerary_md weather_text now : pystr) :
  page_run (top E) Fresh
    (render_pdf E city days interests_text itinerary_md weather_text now)
  = Some Fresh.
Proof.
  unfold render_pdf.
  set (b1 := draw_block E Helvetica 11 false _ _ _).
  set (b2 := draw_block E Helvetica 11 false _ _ _).
  set (b3 := draw_block E Helvetica 11 true _ _ _).
  assert (T : tracks (top E) (fst b3) (snd b1 ++ snd b2 ++ snd b3) (top E - 18)).
  { eapply tracks_app; [apply draw_block_tracks; lra|].
    intros p1 Hp1. eapply tracks_app; [by apply draw_block_tracks|].
    intros p2 Hp2. by apply draw_block_tracks. }
  destruct T as (p' & Hp' & _).
  rewrite page_run_app.
  assert (Hh : page_run (top E) Fresh (header E city days now)
               = Some (At (top E - 18))).
  { simpl. rewrite Qeq_bool_refl.
    assert (Hle : Qle_bool (top E - 18) (top E) = true)
      by (apply Qle_bool_iff; lra).
    by rewrite Hle. }
  rewrite Hh.
  rewrite (app_assoc (snd b1)), (app_assoc (snd b1 ++ snd b2)),
    <- (app_assoc (snd b1)).
  by rewrite page_run_app, Hp'.
Qed.

End Pagination.

Section PaginationMain.
Import Py Pdf.
Local Open Scope Q_scope.

(** What the page-break test of [write] keeps.  On a page whose bottom
    margin is not above its top margin: (1) in the log of a whole
    [render_pdf] call the strings of one page are drawn at non-increasing
    [y], the first string after a page break is drawn at [top], and a page
    break only follows a string; (2) every body segment is drawn at or
    above the bottom margin; (3) for a body segment the cursor is first
    lowered by the line height, and exactly when that falls below the
    bottom margin one page break is made and the cursor is reset to [top]
    before the segment is drawn. *)
Theorem pagination_of_body_segments (E : Env) (city : pystr) (days : Z)
    (interests_text itinerary_md weather_text now : pystr) :
  bottom E <= top E ->
  page_run (top E) Fresh
    (render_pdf E city days interests_text itinerary_md weather_text now)
  = Some Fresh
  /\ (forall font size bullet body y0,
        Forall (fun o => above (bottom E) o = true)
               (snd (write E font size bullet body y0)))
  /\ (forall font size y0 seg,
        write_seg E font size y0 seg
        = if Qltb (y0 - line_h) (bottom E)
          then (top E, [showPage; setFont font size;
                        drawString (left E) (top E) seg])
          else (y0 - line_h, [drawString (left E) (y0 - line_h) seg])).
Proof.
  intros Hgeo. split; [apply render_pdf_pages|]. split.
  - intros. by apply write_lines_above.
  - done.
Qed.

Lemma pagination_of_body_segments_witness :
  bottom env0 <= top env0
  /\ page_run (top env0) Fresh
       (render_pdf env0 (lit "paris") 3 (lit "art, food")
          (lit "## Day 1" ++ [LF] ++ lit "* Louvre") (lit "sunny")
          (lit "04 Nov 2026, 10:00 AM"))
     = Some Fresh.
Proof.
  assert (H : bottom env0 <= top env0) by (vm_compute; discriminate).
  split; [exact H|].
  exact (proj1 (pagination_of_body_segments env0 (lit "paris") 3
                  (lit "art, food") (lit "## Day 1" ++ [LF] ++ lit "* Louvre")
                  (lit "sunny") (lit "04 Nov 2026, 10:00 AM") H)).
Defined.

(** C1 fails on a block title.  [write] tests the cursor against the
    bottom margin before every body segment, [draw_block] draws its title
    without that test.  After forty-nine body lines the Interests block
    ends 8 points below its last line, which is under the bottom margin;
    the title of the Weather block is drawn there, and no page break has
    been made before it. *)
Lemma title_drawn_below_bottom_margin :
  exists pre post y,
    long_run = pre ++ drawString (left env0) y (lit "Weather") :: post
    /\ Forall (fun o => o <> showPage) pre
    /\ y < bottom env0
    /\ forallb (above (bottom env0)) long_run = false.
Proof.
  exists (take 58 long_run), (drop 59 long_run), (793496 # 16129).
  split; [by vm_compute|]. split; [|split].
  - vm_compute. repeat constructor; discriminate.
  - by vm_compute.
  - by vm_compute.
Qed.

End PaginationMain.

(** ** Blocks (app.py, lines 156-172 and 184-195) *)

Section Blocks.
Import Py Pdf.
Local Open Scope Q_scope.

Lemma prepare_line_empty (bullet : bool) : prepare_line bullet [] = [].
Proof. by destruct bullet. Qed.

(** The body [""] is the single line [""], so what is drawn for it is what
    [simpleSplit] makes of the empty line. *)
Lemma write_empty (E : Env) (font : pystr) (size : Q) (bullet : bool)
    (y0 : Q) :
  write E font size bullet [] y0
  = write_segs E font size (simpleSplit E [] font size (maxw E)) y0.
Proof.
  unfold write. simpl. unfold segments. rewrite prepare_line_empty.
  rewrite app_nil_r. by destruct (write_segs _ _ _ _ _).
Qed.

(** What the empty body costs depends on the wrapper alone.  If it makes
    one empty segment of the empty line, and the page has room, that
    segment is drawn one line height below the title advance and the block
    ends 8 below it; if it makes none, see the theorem that follows. *)
Lemma empty_body_with_one_empty_segment (E : Env) (font : pystr) (size : Q)
    (bullet : bool) (title : pystr) (y : Q) :
  simpleSplit E [] font size (maxw E) = [[]] ->
  bottom E <= y - 12 - line_h ->
  draw_block E font size bullet title [] y
  = (y - 12 - line_h - 8,
     block_head E font size title y
       ++ [drawString (left E) (y - 12 - line_h) []]).
Proof.
  intros Hseg Hroom. unfold draw_block. rewrite write_empty, Hseg.
  simpl. unfold write_seg.
  apply Qltb_false in Hroom. unfold bottom in Hroom. by rewrite Hroom.
Qed.

(** C6, as amended.  [draw_block] draws the title at the cursor it is
    given, lowers the cursor by 12, writes the body, and returns the cursor
    reached after the last segment lowered by a fixed 8 points (the text
    line height is 14).  For the empty body the segments are those of the
    empty line; when there is none, only the title is drawn and the result
    is the start lowered by 12 and by 8. *)
Theorem draw_block_returns_cursor_minus_8 (E : Env) (font : pystr) (size : Q)
    (bullet : bool) (title body : pystr) (y : Q) :
  draw_block E font size bullet title body y
  = (fst (write E font size bullet body (y - 12)) - 8,
     block_head E font size title y
       ++ snd (write E font size bullet body (y - 12)))
  /\ draw_block E font size bullet title [] y
     = (fst (write_segs E font size (simpleSplit E [] font size (maxw E))
               (y - 12)) - 8,
        block_head E font size title y
          ++ snd (write_segs E font size (simpleSplit E [] font size (maxw E))
                    (y - 12)))
  /\ (simpleSplit E [] font size (maxw E) = [] ->
      draw_block E font size bullet title [] y
      = (y - 12 - 8, block_head E font size title y)).
Proof.
  split; [done|].
  assert (H0 : draw_block E font size bullet title [] y
     = (fst (write_segs E font size (simpleSplit E [] font size (maxw E))
               (y - 12)) - 8,
        block_head E font size title y
          ++ snd (write_segs E font size (simpleSplit E [] font size (maxw E))
                    (y - 12)))).
  { unfold draw_block. by rewrite write_empty. }
  split; [done|].
  intros Hno. rewrite H0. by rewrite Hno.
Qed.

(** The spacing is 8 for every wrapper, body and start. *)
Lemma spacing_is_8 (E : Env) (font : pystr) (size : Q) (bullet : bool)
    (title body : pystr) (y : Q) :
  fst (write E font size bullet body (y - 12))
  - fst (draw_block E font size bullet title body y) == 8.
Proof. unfold draw_block. simpl. ring. Qed.

(** C6 as stated fails: after the one body line drawn at 674 the block
    returns 666, which is 8 below it and not one line height (14). *)
Lemma spacing_is_not_one_line_height :
  fst (write env0 Helvetica 11 false (lit "a") (700 - 12)) == 674
  /\ fst (draw_block env0 Helvetica 11 false (lit "T") (lit "a") 700) == 666
  /\ ~ fst (draw_block env0 Helvetica 11 false (lit "T") (lit "a") 700)
       == fst (write env0 Helvetica 11 false (lit "a") (700 - 12)) - line_h.
Proof.
  split; [by vm_compute|]. split; [by vm_compute|].
  intros H. vm_compute in H. discriminate.
Qed.

(** A body of one line is written as the segments of that line. *)
Lemma write_one_line (E : Env) (font : pystr) (size : Q) (ln : pystr)
    (y0 : Q) :
  split_nl ln = [ln] ->
  write E font size false ln y0
  = write_segs E font size (simpleSplit E ln font size (maxw E)) y0.
Proof.
  intros Hln. unfold write. rewrite Hln. simpl. unfold segments. simpl.
  rewrite app_nil_r. by destruct (write_segs _ _ _ _ _).
Qed.

(** With the empty string as interests text, and a wrapper that makes one
    segment of the dash, the dash is drawn right under the title
    "Interests": one line height under the title advance, or at the top of
    a new page when that is under the bottom margin. *)
Lemma render_pdf_empty_interests (E : Env) (city : pystr) (days : Z)
    (itinerary_md weather_text now : pystr) :
  simpleSplit E [EM_DASH] Helvetica 11 (maxw E) = [[EM_DASH]] ->
  exists brk y rest,
    render_pdf E city days [] itinerary_md weather_text now
    = header E city days now
      ++ block_head E Helvetica 11 (lit "Interests") (top E - 18 - 12)
      ++ brk ++ drawString (left E) y [EM_DASH] :: rest
    /\ ((brk = [] /\ y = top E - 18 - 12 - 12 - line_h)
        \/ (brk = [showPage; setFont Helvetica 11] /\ y = top E)).
Proof.
  intros Hseg. unfold render_pdf, draw_block. simpl interests_body.
  rewrite (write_one_line E Helvetica 11 [EM_DASH]) by done.
  rewrite Hseg. cbn [write_segs]. unfold write_seg.
  destruct (Qltb (top E - 18 - 12 - 12 - line_h) (2 * cm E)).
  - eexists [showPage; setFont Helvetica 11], (top E), _.
    split; [simpl; reflexivity | by right].
  - eexists [], (top E - 18 - 12 - 12 - line_h), _.
    split; [simpl; reflexivity | by left].
Qed.

(** C9.  With the empty string as interests text the body of the Interests
    block is the em dash, and, the wrapper making one segment of the dash,
    the log of [render_pdf] has the dash drawn at the left margin right
    after the title "Interests" (on the same page, or first on a new page
    when the page is full).  A text that is not empty is its own body. *)
Theorem empty_interests_render_a_dash (E : Env) (city : pystr) (days : Z)
    (itinerary_md weather_text now : pystr) :
  simpleSplit E [EM_DASH] Helvetica 11 (maxw E) = [[EM_DASH]] ->
  interests_body [] = [EM_DASH]
  /\ (exists brk y rest,
        render_pdf E city days [] itinerary_md weather_text now
        = header E city days now
          ++ block_head E Helvetica 11 (lit "Interests") (top E - 18 - 12)
          ++ brk ++ drawString (left E) y [EM_DASH] :: rest
        /\ ((brk = [] /\ y = top E - 18 - 12 - 12 - line_h)
            \/ (brk = [showPage; setFont Helvetica 11] /\ y = top E)))
  /\ (forall interests_text,
        interests_text <> [] -> interests_body interests_text = interests_text).
Proof.
  intros Hseg. split; [done|]. split.
  - by apply render_pdf_empty_interests.
  - by intros [|c r].
Qed.

Lemma empty_interests_render_a_dash_witness :
  simpleSplit env0 [EM_DASH] Helvetica 11 (maxw env0) = [[EM_DASH]]
  /\ exists brk y rest,
       render_pdf env0 (lit "paris") 3 [] two_lines (lit "sunny")
         (lit "04 Nov 2026, 10:00 AM")
       = header env0 (lit "paris") 3 (lit "04 Nov 2026, 10:00 AM")
         ++ block_head env0 Helvetica 11 (lit "Interests") (top env0 - 18 - 12)
         ++ brk ++ drawString (left env0) y [EM_DASH] :: rest
       /\ ((brk = [] /\ y = top env0 - 18 - 12 - 12 - line_h)
           \/ (brk = [showPage; setFont Helvetica 11] /\ y = top env0)).
Proof.
  split; [reflexivity|].
  exact (proj1 (proj2 (empty_interests_render_a_dash env0 (lit "paris") 3
                         two_lines (lit "sunny")
                         (lit "04 Nov 2026, 10:00 AM") eq_refl))).
Defined.

End Blocks.

(** ** Bullets (app.py, lines 163-164) *)

Section Bullets.
Import Py Pdf.

Lemma prepare_line_unmarked (bullet : bool) (ln : pystr) :
  bullet = false \/ is_bullet_line ln = false -> prepare_line bullet ln = ln.
Proof.
  unfold prepare_line. intros [-> | ->]; [done|]. by rewrite andb_false_r.
Qed.

Lemma lstrip_by_app (f : char -> bool) (pre rest : pystr) :
  Forall (fun c => f c = true) pre ->
  head (List.map f rest) <> Some true ->
  lstrip_by f (pre ++ rest) = rest.
Proof.
  intros Hpre Hrest. induction Hpre as [|c pre Hc _ IH]; simpl.
  - destruct rest as [|c r]; [done|]. simpl in *.
    by destruct (f c).
  - by rewrite Hc.
Qed.

(** For a line indented with plain spaces the rewriting is what C7 says:
    the leading markers and spaces go, one glyph and a space come first. *)
Lemma bullet_line_plain_indent (pre rest : pystr) :
  Forall (fun c => inset [STAR; DASH; BULLET; SPACE] c = true) pre ->
  head (List.map (inset [STAR; DASH; BULLET; SPACE]) rest) <> Some true ->
  head (List.map isspace rest) <> Some true ->
  bullet_line (pre ++ rest) = [BULLET; SPACE] ++ rstrip_by isspace rest.
Proof.
  intros Hpre Hset Hsp. unfold bullet_line, lstrip_chars, strip.
  rewrite lstrip_by_app by done.
  pose proof (lstrip_by_app isspace [] rest) as H. simpl in H.
  by rewrite H.
Qed.

(** C7 fails on a bullet indented with a tab.  The test trims every kind of
    white space and finds the marker, but [lstrip("*-• ")] stops at the
    tab, so the marker stays behind the glyph. *)
Theorem tab_indented_bullet_keeps_its_marker :
  is_bullet_line (TAB :: lit "* item") = true
  /\ prepare_line true (TAB :: lit "* item") = [BULLET; SPACE] ++ lit "* item"
  /\ prepare_line true (SPACE :: lit "* item") = [BULLET; SPACE] ++ lit "item".
Proof. by vm_compute. Qed.

End Bullets.

(** ** The weather summary (app.py, lines 82-143) *)

Section WeatherFacts.
Import Py Dyn Weather.

Lemma bind_ret_l {A B} (a : A) (k : A -> result B) : bind (ret a) k = k a.
Proof. reflexivity. Qed.

Lemma WCODE_get_int (n : Z) :
  WCODE_get (JInt n) NA = ret (default NA (WCODE !! n)).
Proof. reflexivity. Qed.

Lemma WCODE_get_float (f : pyfloat) : exists d, WCODE_get (JFloat f) NA = ret d.
Proof. destruct f as [q | |]; unfold WCODE_get, int_key; by eexists. Qed.

(** C10.  For an [int] code the lookup returns the description the table
    lists for it and ["N/A"] for a code the table does not list; for a
    [float] code it also returns; so the loop of [weather_md] gets its line
    for any numeric code whenever the day has its other three values. *)
Theorem WCODE_get_is_total :
  (forall n : Z, WCODE_get (JInt n) NA = ret (default NA (WCODE !! n)))
  /\ Forall (fun kd => WCODE_get (JInt kd.1) NA = ret kd.2) WCODE_items
  /\ (forall n : Z, n ∉ WCODE_items.*1 -> WCODE_get (JInt n) NA = ret NA)
  /\ (forall f : pyfloat, exists d, WCODE_get (JFloat f) NA = ret d)
  /\ (forall W w i dt code tmin tmax pop,
        (exists n, code = JInt n) \/ (exists f, code = JFloat f) ->
        py_getindex (w_wcode w) i = ret code ->
        py_getindex (w_tmin w) i = ret tmin ->
        py_getindex (w_tmax w) i = ret tmax ->
        py_getindex (w_pop w) i = ret pop ->
        exists line, weather_line W w i dt = ret line).
Proof.
  split; [exact WCODE_get_int|].
  split; [|split; [|split; [exact WCODE_get_float|]]].
  - unfold WCODE_items.
    repeat (constructor; [vm_compute; reflexivity|]). constructor.
  - intros n Hn. rewrite WCODE_get_int.
    unfold WCODE. by rewrite (not_elem_of_list_to_map_1 _ _ Hn).
  - intros W w i dt code tmin tmax pop Hnum Hc Hmin Hmax Hpop.
    assert (Hd : exists d, WCODE_get code NA = ret d).
    { destruct Hnum as [[n ->] | [f ->]];
        [rewrite WCODE_get_int; by eexists | apply WCODE_get_float]. }
    destruct Hd as [d Hd].
    unfold weather_line. rewrite Hc, bind_ret_l, Hd, bind_ret_l.
    rewrite Hmin, bind_ret_l, Hmax, bind_ret_l, Hpop, bind_ret_l.
    by eexists.
Qed.

(** *** What the [try] body can raise *)

Lemma roE_ret {A} (a : A) : raises_only_Exception (ret a).
Proof. intros e H. discriminate. Qed.

Lemma roE_raise {A} (e : exn) :
  is_Exception e = true -> raises_only_Exception (@raise A e).
Proof. intros He e' H. by injection H as <-. Qed.

Lemma roE_bind {A B} (m : result A) (k : A -> result B) :
  raises_only_Exception m ->
  (forall a, m = ret a -> raises_only_Exception (k a)) ->
  raises_only_Exception (bind m k).
Proof.
  intros Hm Hk e. destruct m as [a | e0]; simpl.
  - by apply Hk.
  - intros H. injection H as <-. by apply Hm.
Qed.

Lemma roE_py_get v k d : raises_only_Exception (py_get v k d).
Proof. destruct v; simpl; (apply roE_ret || by apply roE_raise). Qed.

Lemma roE_py_getkey v k : raises_only_Exception (py_getkey v k).
Proof.
  destruct v; simpl; try by apply roE_raise.
  case_match; [apply roE_ret | by apply roE_raise].
Qed.

Lemma roE_py_getindex v i : raises_only_Exception (py_getindex v i).
Proof.
  destruct v; simpl; try by apply roE_raise.
  all: case_match; [apply roE_ret | by apply roE_raise].
Qed.

Lemma roE_py_iter v : raises_only_Exception (py_iter v).
Proof. destruct v; simpl; (apply roE_ret || by apply roE_raise). Qed.

Lemma roE_WCODE_get k d : raises_only_Exception (WCODE_get k d).
Proof.
  unfold WCODE_get. apply roE_bind; [|intros; apply roE_ret].
  destruct k as [| | |[]| | |]; simpl; (apply roE_ret || by apply roE_raise).
Qed.

Create HintDb roE.
#[local] Hint Resolve roE_ret roE_py_get roE_py_getkey roE_py_getindex
  roE_py_iter roE_WCODE_get : roE.

Ltac roE_step :=
  first [ apply roE_ret
        | apply roE_raise; reflexivity
        | solve [eauto with roE]
        | apply roE_bind; [| intros ? ?] ].

Section World.
Context (W : World) (HW : raises_Exceptions W).

Lemma roE_geocode city : raises_only_Exception (geocode W city).
Proof.
  destruct HW as (Hget & Hresp & _). unfold geocode.
  apply roE_bind; [apply Hget | intros r Hr].
  destruct (Hresp _ _ _ Hr) as [Hst Hjs].
  apply roE_bind; [done | intros _ _].
  apply roE_bind; [done | intros j _].
  apply roE_bind; [auto with roE | intros res _].
  destruct (negb (truthy res)); [by apply roE_raise|].
  repeat roE_step.
Qed.

Lemma roE_daily d k : raises_only_Exception (daily d k).
Proof. unfold daily. repeat roE_step. Qed.

Lemma roE_get_weather city days :
  raises_only_Exception (get_weather W city days).
Proof.
  pose proof HW as (Hget & Hresp & Hdate). unfold get_weather.
  apply roE_bind; [apply roE_geocode | intros [[lat lon] label] _].
  apply roE_bind; [apply Hdate | intros end_ _].
  apply roE_bind; [apply Hget | intros r Hr].
  destruct (Hresp _ _ _ Hr) as [Hst Hjs].
  apply roE_bind; [done | intros _ _].
  apply roE_bind; [done | intros d _].
  repeat (apply roE_bind; [apply roE_daily | intros ? _]).
  apply roE_ret.
Qed.

Lemma roE_weather_line w i dt : raises_only_Exception (weather_line W w i dt).
Proof. unfold weather_line. repeat roE_step. Qed.

Lemma roE_weather_lines w dates i :
  raises_only_Exception (weather_lines W w i dates).
Proof.
  revert i; induction dates as [|dt rest IH]; intros i; simpl.
  - apply roE_ret.
  - apply roE_bind; [apply roE_weather_line | intros l _].
    apply roE_bind; [apply IH | intros ls _]. apply roE_ret.
Qed.

Lemma roE_weather_md_try city days :
  raises_only_Exception (weather_md_try W city days).
Proof.
  unfold weather_md_try.
  apply roE_bind; [apply roE_get_weather | intros w _].
  apply roE_bind; [apply roE_py_iter | intros dates _].
  apply roE_bind; [apply roE_weather_lines | intros ls _].
  apply roE_ret.
Qed.

End World.

(** C8.  When what the network, the decoder and the clock raise derives
    from [Exception], [weather_md] always returns a string: the summary
    when the [try] body returns it, and otherwise the marker followed by
    the text of the exception, whatever the body raised. *)
Theorem weather_md_returns_placeholder (W : World) (city : pystr) (days : Z) :
  raises_Exceptions W ->
  exists s,
    weather_md W city days = ret s
    /\ (forall r, weather_md_try W city days = ret r -> s = r)
    /\ (forall e, weather_md_try W city days = raise e ->
          s = FETCH_FAILED ++ exn_str W e
          /\ startswith s FETCH_FAILED = true).
Proof.
  intros HW. pose proof (roE_weather_md_try W HW city days) as Hro.
  unfold weather_md. destruct (weather_md_try W city days) as [r | e].
  - exists r. split; [done|]. split; [by intros ? [= ->] | done].
  - rewrite (Hro e eq_refl). eexists. split; [done|].
    split; [done|]. intros e' [= <-].
    split; [done | apply startswith_app].
Qed.

Example weather_md_offline :
  weather_md world_offline (lit "Pune") 2
  = ret (FETCH_FAILED ++ lit "Connection refused").
Proof. reflexivity. Qed.

(** A summary that was fetched: the unknown code of the second day reads
    ["N/A"], and the only ["### "] is the one in front. *)
Example weather_md_two_days :
  exists s,
    weather_md world_two_days (lit "Pune") 2 = ret s
    /\ length (split_nl s) = 3%nat
    /\ contains s (lit "Partly cloudy") = true
    /\ contains s (lit "N/A") = true
    /\ Pdf.weather_body s = drop 4 s.
Proof. eexists. split; [reflexivity|]. by vm_compute. Qed.

Lemma world_city_not_found_raises_Exceptions :
  raises_Exceptions world_city_not_found.
Proof. repeat split; intros; intros e He; simplify_eq/=; done. Qed.

Lemma weather_md_returns_placeholder_witness :
  raises_Exceptions world_city_not_found
  /\ weather_md world_city_not_found (lit "Atlantis") 3
     = ret ([WARNING_SIGN; VS16] ++ lit " Weather fetch failed: City not found").
Proof.
  split; [apply world_city_not_found_raises_Exceptions|].
  destruct (weather_md_returns_placeholder world_city_not_found
              (lit "Atlantis") 3 world_city_not_found_raises_Exceptions)
    as (s & Hs & _ & Hraise).
  rewrite Hs. f_equal.
  exact (proj1 (Hraise (ValueError (lit "City not found")) eq_refl)).
Defined.

End WeatherFacts.

(** ** What a rendered document contains and where *)

Section LayoutFacts.
Import Py Pdf Layout.
Local Open Scope Q_scope.

Lemma texts_app (l1 l2 : list op) : texts (l1 ++ l2) = texts l1 ++ texts l2.
Proof. apply omap_app. Qed.

Lemma font_run_app (b : bool) (l1 l2 : list op) :
  font_run b (l1 ++ l2)
  = match font_run b l1 with
    | Some b' => font_run b' l2
    | None => None
    end.
Proof.
  revert b; induction l1 as [|o l1 IH]; intros b; simpl; [done|].
  by destruct (font_step b o).
Qed.

Lemma page_breaks_app (l1 l2 : list op) :
  page_breaks (l1 ++ l2) = (page_breaks l1 + page_breaks l2)%nat.
Proof. unfold page_breaks. by rewrite List.filter_app, length_app. Qed.

Context (E : Env).

Section Block.
Context (font : pystr) (size : Q) (bullet : bool).

Lemma write_segs_texts (segs : list pystr) (y0 : Q) :
  texts (snd (write_segs E font size segs y0)) = segs.
Proof.
  revert y0; induction segs as [|seg segs IH]; intros y0; simpl; [done|].
  rewrite texts_app, IH. unfold write_seg.
  by destruct (Qltb _ _).
Qed.

Lemma write_lines_texts (lns : list pystr) (y0 : Q) :
  texts (snd (write_lines E font size bullet lns y0))
  = concat (List.map (segments E font size bullet) lns).
Proof.
  revert y0; induction lns as [|ln lns IH]; intros y0; simpl; [done|].
  by rewrite texts_app, IH, write_segs_texts.
Qed.

Lemma draw_block_texts (title body : pystr) (y : Q) :
  texts (snd (draw_block E font size bullet title body y))
  = title :: body_segments E font size bullet body.
Proof.
  unfold draw_block, write, body_segments. simpl.
  by rewrite write_lines_texts.
Qed.

Lemma write_segs_font (segs : list pystr) (y0 : Q) :
  font_run true (snd (write_segs E font size segs y0)) = Some true.
Proof.
  revert y0; induction segs as [|seg segs IH]; intros y0; simpl; [done|].
  rewrite font_run_app. unfold write_seg.
  destruct (Qltb _ _); simpl; apply IH.
Qed.

Lemma write_lines_font (lns : list pystr) (y0 : Q) :
  font_run true (snd (write_lines E font size bullet lns y0)) = Some true.
Proof.
  revert y0; induction lns as [|ln lns IH]; intros y0; simpl; [done|].
  by rewrite font_run_app, write_segs_font.
Qed.

Lemma draw_block_font (b : bool) (title body : pystr) (y : Q) :
  font_run b (snd (draw_block E font size bullet title body y)) = Some true.
Proof. unfold draw_block, write. simpl. apply write_lines_font. Qed.

(** Where the cursor and the strings are while a body is written. *)
Lemma write_seg_placed (lo y0 : Q) (seg : pystr) :
  bottom E <= top E -> lo <= bottom E -> y0 <= top E + line_h ->
  Forall (placed (left E) (bottom E) (top E))
         (snd (write_seg E font size y0 seg))
  /\ bottom E <= fst (write_seg E font size y0 seg) <= top E.
Proof.
  intros Hgeo Hlo Hy. unfold write_seg.
  destruct (Qltb (y0 - line_h) (2 * cm E)) eqn:Hb; simpl.
  - split; [|split; [done | apply Qle_refl]].
    repeat constructor; simpl; try done. apply Qle_refl.
  - apply Qltb_false in Hb. fold (bottom E) in Hb.
    split; [|split; [done | lra]].
    repeat constructor; simpl; try done. lra.
Qed.

Lemma write_segs_placed (lo : Q) (segs : list pystr) (y0 : Q) :
  bottom E <= top E -> lo <= bottom E -> lo <= y0 <= top E ->
  Forall (placed (left E) (bottom E) (top E))
         (snd (write_segs E font size segs y0))
  /\ lo <= fst (write_segs E font size segs y0) <= top E.
Proof.
  intros Hgeo Hlo. revert y0; induction segs as [|seg segs IH];
    intros y0 Hy; simpl; [by split|].
  destruct (write_seg_placed lo y0 seg) as [H1 H2]; try done.
  { unfold line_h. lra. }
  destruct (IH (fst (write_seg E font size y0 seg))) as [H3 H4]; [lra|].
  split; [by apply Forall_app | done].
Qed.

Lemma write_lines_placed (lo : Q) (lns : list pystr) (y0 : Q) :
  bottom E <= top E -> lo <= bottom E -> lo <= y0 <= top E ->
  Forall (placed (left E) (bottom E) (top E))
         (snd (write_lines E font size bullet lns y0))
  /\ lo <= fst (write_lines E font size bullet lns y0) <= top E.
Proof.
  intros Hgeo Hlo. revert y0; induction lns as [|ln lns IH];
    intros y0 Hy; simpl; [by split|].
  destruct (write_segs_placed lo (segments E font size bullet ln) y0)
    as [H1 H2]; try done.
  destruct (IH (fst (write_segs E font size
                       (segments E font size bullet ln) y0))) as [H3 H4];
    [done|].
  split; [by apply Forall_app | done].
Qed.

Lemma placed_weaken (x0 lo lo' hi : Q) (log : list op) :
  lo' <= lo -> Forall (placed x0 lo hi) log -> Forall (placed x0 lo' hi) log.
Proof.
  intros Hlo HF. eapply Forall_impl; [exact HF|].
  intros [] H; simpl in *; try done.
  destruct H as (? & ? & ?). repeat split; try done. lra.
Qed.

(** A block that starts at [y] with [lo <= y], where [lo] is at most 12
    above the bottom margin, draws nothing below [lo] or below the
    margin, and ends at most 20 below [lo]. *)
Lemma draw_block_placed (lo m : Q) (title body : pystr) (y : Q) :
  bottom E <= top E -> lo <= bottom E + 12 -> lo <= y <= top E ->
  m <= lo -> m <= bottom E ->
  Forall (placed (left E) m (top E))
         (snd (draw_block E font size bullet title body y))
  /\ lo - 20 <= fst (draw_block E font size bullet title body y) <= top E.
Proof.
  intros Hgeo Hlo Hy Hm1 Hm2. unfold draw_block, write.
  destruct (write_lines_placed (lo - 12) (split_nl body) (y - 12))
    as [H1 H2]; try done; try lra.
  simpl. split; [|lra].
  constructor; [done|]. constructor; [simpl; repeat split; lra|].
  constructor; [done|]. by apply (placed_weaken _ (bottom E)).
Qed.

End Block.

(** The strings of a document, in drawing order, are the two heading lines
    and, block after block, the title and the segments of the body:
    pagination loses, repeats and reorders nothing. *)
Theorem render_pdf_texts (city : pystr) (days : Z)
    (interests_text itinerary_md weather_text now : pystr) :
  texts (render_pdf E city days interests_text itinerary_md weather_text now)
  = [page_title E city days; generated_line now]
    ++ lit "Interests"
       :: body_segments E Helvetica 11 false (interests_body interests_text)
    ++ lit "Weather"
       :: body_segments E Helvetica 11 false (weather_body weather_text)
    ++ lit "Itinerary"
       :: body_segments E Helvetica 11 true (itinerary_body itinerary_md).
Proof.
  unfold render_pdf. rewrite !texts_app, !draw_block_texts.
  simpl. by rewrite app_nil_r.
Qed.

(** No string is drawn on a page before a font has been set on that page:
    after every page break the font is set again before the next string. *)
Theorem render_pdf_sets_font_on_every_page (city : pystr) (days : Z)
    (interests_text itinerary_md weather_text now : pystr) :
  font_run false
    (render_pdf E city days interests_text itinerary_md weather_text now)
  = Some false.
Proof.
  unfold render_pdf. cbv zeta. unfold header.
  cbn [font_run font_step app].
  by repeat (rewrite font_run_app, draw_block_font).
Qed.

(** On a page with at least 42 points between the margins, every string of
    a document is drawn at the left margin, not above the top margin and
    at most 28 points below the bottom margin. *)
Theorem render_pdf_strings_stay_near_the_margins (city : pystr) (days : Z)
    (interests_text itinerary_md weather_text now : pystr) :
  bottom E + 42 <= top E ->
  Forall (placed (left E) (bottom E - 28) (top E))
    (render_pdf E city days interests_text itinerary_md weather_text now).
Proof.
  intros Hgeo. unfold render_pdf.
  set (b1 := draw_block E Helvetica 11 false _ _ _).
  set (b2 := draw_block E Helvetica 11 false _ _ _).
  set (b3 := draw_block E Helvetica 11 true _ _ _).
  destruct (draw_block_placed Helvetica 11 false (bottom E + 12)
              (bottom E - 28) (lit "Interests")
              (interests_body interests_text) (top E - 18 - 12))
    as [P1 C1]; try lra.
  fold b1 in P1, C1.
  destruct (draw_block_placed Helvetica 11 false (bottom E - 8)
              (bottom E - 28) (lit "Weather")
              (weather_body weather_text) (fst b1))
    as [P2 C2]; try lra.
  fold b2 in P2, C2.
  destruct (draw_block_placed Helvetica 11 true (bottom E - 28)
              (bottom E - 28) (lit "Itinerary")
              (itinerary_body itinerary_md) (fst b2))
    as [P3 C3]; try lra.
  fold b3 in P3.
  apply Forall_app; split.
  { unfold header.
    repeat first [apply Forall_nil_2 | apply Forall_cons_2]; simpl; try done;
      (split; [done|]); split; try lra; apply Qle_refl. }
  apply Forall_app; split; [done|].
  apply Forall_app; split; [done|].
  apply Forall_app; split; [done|].
  repeat first [apply Forall_nil_2 | apply Forall_cons_2]; done.
Qed.

End LayoutFacts.

(** ** Room on the page *)

Section Room.
Import Py Pdf Layout.
Local Open Scope Q_scope.
Context (E : Env) (font : pystr) (size : Q).

Lemma write_segs_app (a b : list pystr) (y0 : Q) :
  fst (write_segs E font size (a ++ b) y0)
  = fst (write_segs E font size b (fst (write_segs E font size a y0)))
  /\ snd (write_segs E font size (a ++ b) y0)
     = snd (write_segs E font size a y0)
       ++ snd (write_segs E font size b (fst (write_segs E font size a y0))).
Proof.
  revert y0; induction a as [|seg a IH]; intros y0; simpl; [done|].
  destruct (IH (fst (write_seg E font size y0 seg))) as [-> ->].
  by rewrite app_assoc.
Qed.

(** Writing a body is writing its segments one after the other: the line
    structure plays no part once the lines are wrapped. *)
Lemma write_flat (bullet : bool) (body : pystr) (y0 : Q) :
  fst (write E font size bullet body y0)
  = fst (write_segs E font size (body_segments E font size bullet body) y0)
  /\ snd (write E font size bullet body y0)
     = snd (write_segs E font size (body_segments E font size bullet body) y0).
Proof.
  unfold write, body_segments.
  revert y0; induction (split_nl body) as [|ln lns IH]; intros y0; simpl;
    [done|].
  destruct (write_segs_app (segments E font size bullet ln)
              (concat (List.map (segments E font size bullet) lns)) y0)
    as [-> ->].
  by destruct (IH (fst (write_segs E font size
                          (segments E font size bullet ln) y0))) as [-> ->].
Qed.

Lemma inject_succ (n : nat) :
  inject_Z (Z.of_nat (S n)) == inject_Z (Z.of_nat n) + 1.
Proof. rewrite Nat2Z.inj_succ, <- Z.add_1_r, inject_Z_plus. reflexivity. Qed.

Lemma inject_nat_nonneg (n : nat) : 0 <= inject_Z (Z.of_nat n).
Proof.
  change 0 with (inject_Z 0). rewrite <- Zle_Qle. apply Nat2Z.is_nonneg.
Qed.

Lemma write_segs_fit (segs : list pystr) (y0 : Q) :
  bottom E <= y0 - line_h * inject_Z (Z.of_nat (length segs)) ->
  fst (write_segs E font size segs y0)
  == y0 - line_h * inject_Z (Z.of_nat (length segs))
  /\ page_breaks (snd (write_segs E font size segs y0)) = 0%nat.
Proof.
  revert y0; induction segs as [|seg segs IH]; intros y0 Hroom.
  - simpl. split; [|done]. unfold line_h. simpl. ring.
  - cbn [length] in *. rewrite inject_succ in Hroom.
    pose proof (inject_nat_nonneg (length segs)) as Hn.
    unfold line_h in *.
    assert (Hb : Qltb (y0 - 14) (2 * cm E) = false).
    { apply Qltb_false. unfold bottom in Hroom. nra. }
    cbn [write_segs]. unfold write_seg. unfold line_h. rewrite Hb.
    cbn [fst snd]. destruct (IH (y0 - 14)) as [H1 H2].
    { unfold line_h. lra. }
    split; [|exact H2].
    rewrite H1, inject_succ. unfold line_h. ring.
Qed.

Lemma write_segs_breaks (segs : list pystr) (y0 : Q) :
  (page_breaks (snd (write_segs E font size segs y0)) <= length segs)%nat.
Proof.
  revert y0; induction segs as [|seg segs IH]; intros y0; simpl; [done|].
  rewrite page_breaks_app.
  pose proof (IH (fst (write_seg E font size y0 seg))) as IH'.
  assert (H1 : (page_breaks (snd (write_seg E font size y0 seg)) <= 1)%nat).
  { unfold write_seg. destruct (Qltb _ _); unfold page_breaks; simpl; lia. }
  lia.
Qed.

(** A body whose segments have room above the bottom margin is written on
    the current page: the cursor goes down one line height per segment and
    no page break is made. *)
Lemma write_fits (bullet : bool) (body : pystr)
    (y0 : Q) :
  bottom E
  <= y0 - line_h
          * inject_Z (Z.of_nat (length (body_segments E font size bullet body))) ->
  fst (write E font size bullet body y0)
  == y0 - line_h
          * inject_Z (Z.of_nat (length (body_segments E font size bullet body)))
  /\ page_breaks (snd (write E font size bullet body y0)) = 0%nat.
Proof.
  intros Hroom. destruct (write_flat bullet body y0) as [-> ->].
  by apply write_segs_fit.
Qed.

(** A body never makes more page breaks than it has segments. *)
Lemma write_breaks (bullet : bool) (body : pystr)
    (y0 : Q) :
  (page_breaks (snd (write E font size bullet body y0))
   <= length (body_segments E font size bullet body))%nat.
Proof.
  destruct (write_flat bullet body y0) as [_ ->]. apply write_segs_breaks.
Qed.

End Room.

Section RoomExample.
Import Py Pdf Layout.
Local Open Scope Q_scope.

Lemma render_pdf_strings_stay_near_the_margins_witness :
  bottom env0 + 42 <= top env0
  /\ Forall (placed (left env0) (bottom env0 - 28) (top env0)) long_run.
Proof.
  assert (H : bottom env0 + 42 <= top env0) by (vm_compute; discriminate).
  split; [exact H|].
  exact (render_pdf_strings_stay_near_the_margins env0 (lit "x") 1
           long_interests (lit "i") (lit "w") (lit "now") H).
Defined.

End RoomExample.

(** ** Lines and headings of the itinerary *)

Section Lines.
Import Py Pdf Layout.

Lemma split_nl_line (l : pystr) : LF ∉ l -> split_nl l = [l].
Proof.
  induction l as [|c l IH]; intros Hl; [done|].
  apply not_elem_of_cons in Hl as [Hc Hl]. simpl.
  destruct (N.eqb_spec c LF) as [->|_]; [done|].
  by rewrite IH.
Qed.

Lemma split_nl_line_LF (l r : pystr) :
  LF ∉ l -> split_nl (l ++ LF :: r) = l :: split_nl r.
Proof.
  induction l as [|c l IH]; intros Hl.
  - done.
  - apply not_elem_of_cons in Hl as [Hc Hl]. simpl.
    destruct (N.eqb_spec c LF) as [->|_]; [done|].
    by rewrite IH.
Qed.

Lemma split_nl_join_nl (ls : list pystr) :
  ls <> [] -> Forall (fun l => LF ∉ l) ls -> split_nl (join_nl ls) = ls.
Proof.
  induction ls as [|l ls IH]; intros Hne Hls; [done|].
  inversion Hls as [|? ? Hl Hls']; subst.
  destruct ls as [|l2 ls].
  - simpl. by apply split_nl_line.
  - change (join_nl (l :: l2 :: ls)) with (l ++ LF :: join_nl (l2 :: ls)).
    rewrite split_nl_line_LF by done. f_equal. by apply IH.
Qed.

Lemma one_line_no_LF (l : pystr) : one_line l -> LF ∉ l.
Proof.
  intros Hl Hin. unfold one_line in Hl. rewrite Forall_forall in Hl.
  by specialize (Hl LF Hin).
Qed.

Lemma splitlines_nonempty (s : pystr) : s <> [] -> splitlines s <> [].
Proof.
  destruct s as [|c r]; [done|]. intros _. simpl.
  destruct (islinebreak c); [done|]. by destruct (splitlines r).
Qed.

(** Every line of the itinerary, with whatever line boundary it ended
    (LF, CR, CR LF, ...), becomes exactly one line of the Itinerary body:
    [write] splits that body back into the normalised lines. *)
Theorem itinerary_lines_are_written_one_by_one (E : Env) (font : pystr)
    (size : Q) (bullet : bool) (itinerary_md : pystr) :
  itinerary_md <> [] ->
  split_nl (itinerary_body itinerary_md) = norm itinerary_md
  /\ body_segments E font size bullet (itinerary_body itinerary_md)
     = concat (List.map (segments E font size bullet) (norm itinerary_md)).
Proof.
  intros Hne.
  assert (H : split_nl (itinerary_body itinerary_md) = norm itinerary_md).
  { unfold itinerary_body. apply split_nl_join_nl.
    - unfold norm. intros Hn. apply List.map_eq_nil in Hn.
      by apply splitlines_nonempty in Hn.
    - eapply Forall_impl; [apply norm_lines|]. apply one_line_no_LF. }
  split; [done|]. unfold body_segments. by rewrite H.
Qed.

Lemma itinerary_lines_are_written_one_by_one_witness :
  lit "Day 1" ++ [CR; LF] ++ lit "## Day 2" <> []
  /\ split_nl (itinerary_body (lit "Day 1" ++ [CR; LF] ++ lit "## Day 2"))
     = [lit "Day 1"; lit "Day 2"].
Proof.
  assert (H : lit "Day 1" ++ [CR; LF] ++ lit "## Day 2" <> []) by done.
  split; [exact H|].
  rewrite (proj1 (itinerary_lines_are_written_one_by_one env0 Helvetica 11
                    true _ H)).
  reflexivity.
Defined.

(** [strip_heading] only ever removes a prefix, of at most ten characters
    (4 + 3 + 2 + 1). *)
Theorem strip_heading_drops_a_short_prefix (ln : pystr) :
  exists k, (k <= 10)%nat /\ strip_heading ln = drop k ln.
Proof.
  unfold strip_heading, slice_from. cbv zeta.
  repeat match goal with
         | |- context [if ?b then _ else _] => destruct b
         end;
    rewrite ?drop_drop;
    first [ by exists 0%nat; split; [lia|]
          | eexists; (split; [|reflexivity]); simpl; lia ].
Qed.

(** A heading of one marker and a space in front of a text that does not
    itself begin with a hash loses exactly the marker, and a line that does
    not begin with a hash is kept as it is. *)
Theorem strip_heading_of_a_plain_heading (r : pystr) :
  head r <> Some HASH ->
  strip_heading (lit "### " ++ r) = r
  /\ strip_heading (lit "## " ++ r) = r
  /\ strip_heading (lit "# " ++ r) = r
  /\ strip_heading r = r.
Proof.
  intros Hr.
  assert (H : forall p, startswith r (HASH :: p) = false).
  { intros p. destruct r as [|c r']; [done|]. unfold HASH in *.
    cbn [startswith].
    destruct (N.eqb_spec 35 c) as [<-|_]; [by destruct Hr | done]. }
  assert (H3 : startswith r (lit "### ") = false) by exact (H _).
  assert (H2 : startswith r (lit "## ") = false) by exact (H _).
  assert (H1 : startswith r (lit "# ") = false) by exact (H _).
  assert (Hr0 : strip_heading r = r).
  { unfold strip_heading. cbv zeta. rewrite H3; cbv iota.
    rewrite H2; cbv iota. rewrite H1; cbv iota. by rewrite H1. }
  split; [|split; [|split; [|exact Hr0]]].
  - unfold strip_heading. cbv zeta.
    rewrite (startswith_app (lit "### ") r); cbv iota.
    change (slice_from 4 (lit "### " ++ r)) with r.
    rewrite H2; cbv iota. rewrite H1; cbv iota. by rewrite H1.
  - unfold strip_heading. cbv zeta.
    change (startswith (lit "## " ++ r) (lit "### ")) with false; cbv iota.
    rewrite (startswith_app (lit "## ") r); cbv iota.
    change (slice_from 3 (lit "## " ++ r)) with r.
    rewrite H1; cbv iota. by rewrite H1.
  - unfold strip_heading. cbv zeta.
    change (startswith (lit "# " ++ r) (lit "### ")) with false; cbv iota.
    change (startswith (lit "# " ++ r) (lit "## ")) with false; cbv iota.
    rewrite (startswith_app (lit "# ") r); cbv iota.
    change (slice_from 2 (lit "# " ++ r)) with r.
    by rewrite H1.
Qed.

Lemma strip_heading_of_a_plain_heading_witness :
  head (lit "Day 1") <> Some HASH
  /\ strip_heading (lit "## " ++ lit "Day 1") = lit "Day 1".
Proof.
  assert (H : head (lit "Day 1") <> Some HASH) by done.
  split; [exact H|].
  exact (proj1 (proj2 (strip_heading_of_a_plain_heading (lit "Day 1") H))).
Defined.

End Lines.

(** ** Geocoding and the summary: errors and shape *)

Section WeatherMore.
Import Py Dyn Weather WeatherShape.

Lemma bind_ret_inv {A B} (m : result A) (k : A -> result B) (b : B) :
  bind m k = ret b -> exists a, m = ret a /\ k a = ret b.
Proof. destruct m as [a|e]; simpl; [by exists a | done]. Qed.

Lemma bind_raise_l {A B} (e : exn) (k : A -> result B) :
  bind (raise e) k = raise e.
Proof. reflexivity. Qed.

Context (W : World).

(** When the geocoding service answers with an object that has no
    ["results"], or an empty or null one, [geocode] raises
    [ValueError("City not found")] and [weather_md] returns the placeholder
    with that message, whatever the number of days. *)
Theorem unknown_city_is_reported (city : pystr) (days : Z) (r : response)
    (kv : list (pystr * json)) :
  geocode_request W city = ret r ->
  raise_for_status r = ret tt ->
  r_json r = ret (JDict kv) ->
  truthy (default JNull (assoc (lit "results") kv)) = false ->
  geocode W city = raise (ValueError (lit "City not found"))
  /\ weather_md W city days = ret (FETCH_FAILED ++ lit "City not found").
Proof.
  unfold geocode_request. intros Hr Hst Hj Hres.
  assert (Hg : geocode W city = raise (ValueError (lit "City not found"))).
  { unfold geocode. rewrite Hr, bind_ret_l, Hst, bind_ret_l, Hj, bind_ret_l.
    unfold py_get. rewrite bind_ret_l, Hres. reflexivity. }
  split; [exact Hg|].
  unfold weather_md, weather_md_try, get_weather. by rewrite Hg.
Qed.

(** When the first result is an object with a latitude, a longitude and a
    name, [geocode] returns them, and the label is the name, a comma and a
    space, and the country, which is empty when the object has none. *)
Theorem geocode_returns_first_result (city : pystr) (r : response)
    (kv item : list (pystr * json)) (others : list json)
    (lat lon name : json) :
  geocode_request W city = ret r ->
  raise_for_status r = ret tt ->
  r_json r = ret (JDict kv) ->
  assoc (lit "results") kv = Some (JList (JDict item :: others)) ->
  assoc (lit "latitude") item = Some lat ->
  assoc (lit "longitude") item = Some lon ->
  assoc (lit "name") item = Some name ->
  geocode W city
  = ret (lat, lon,
         py_str W name ++ lit ", "
           ++ py_str W (default (JStr []) (assoc (lit "country") item))).
Proof.
  unfold geocode_request. intros Hr Hst Hj Hres Hlat Hlon Hname.
  unfold geocode. rewrite Hr, bind_ret_l, Hst, bind_ret_l, Hj, bind_ret_l.
  cbn [py_get py_getkey bind ret]. rewrite Hres.
  cbn [default truthy negb bind ret py_getindex]. 
  change ((JDict item :: others) !! 0%nat) with (Some (JDict item)).
  cbn [bind ret py_getkey py_get]. rewrite Hlat, Hlon, Hname.
  reflexivity.
Qed.

(** A result that lacks one of the three keys makes [geocode] raise
    [KeyError] with the first key that is missing. *)
Theorem geocode_missing_key (city : pystr) (r : response)
    (kv item : list (pystr * json)) (others : list json) :
  geocode_request W city = ret r ->
  raise_for_status r = ret tt ->
  r_json r = ret (JDict kv) ->
  assoc (lit "results") kv = Some (JList (JDict item :: others)) ->
  assoc (lit "latitude") item = None ->
  geocode W city = raise (KeyError (JStr (lit "latitude"))).
Proof.
  unfold geocode_request. intros Hr Hst Hj Hres Hlat.
  unfold geocode. rewrite Hr, bind_ret_l, Hst, bind_ret_l, Hj, bind_ret_l.
  cbn [py_get py_getkey bind ret]. rewrite Hres.
  cbn [default truthy negb bind ret py_getindex].
  change ((JDict item :: others) !! 0%nat) with (Some (JDict item)).
  cbn [bind ret py_getkey py_get]. by rewrite Hlat.
Qed.

Lemma weather_line_complete (w : weather) (i : nat) (dt : json) (l : pystr) :
  weather_line W w i dt = ret l -> day_is_complete w i.
Proof.
  unfold weather_line. intros H.
  apply bind_ret_inv in H as (code & Hc & H).
  apply bind_ret_inv in H as (desc & Hd & H).
  apply bind_ret_inv in H as (tmin & Hmin & H).
  apply bind_ret_inv in H as (tmax & Hmax & H).
  apply bind_ret_inv in H as (pop & Hpop & H).
  repeat split; by eexists.
Qed.

Lemma weather_lines_complete (w : weather) (ds : list json) (i : nat)
    (ls : list pystr) :
  weather_lines W w i ds = ret ls ->
  length ls = length ds
  /\ forall j, (j < length ds)%nat -> day_is_complete w (i + j).
Proof.
  revert i ls; induction ds as [|dt ds IH]; intros i ls H; simpl in H.
  - injection H as <-. split; [done|]. simpl. lia.
  - apply bind_ret_inv in H as (l & Hl & H).
    apply bind_ret_inv in H as (ls' & Hls & H).
    injection H as <-. destruct (IH _ _ Hls) as [Hlen Hdays].
    split; [simpl; by rewrite Hlen|].
    intros [|j] Hj.
    + rewrite Nat.add_0_r. by eapply weather_line_complete.
    + replace (i + S j)%nat with (S i + j)%nat by lia.
      apply Hdays. simpl in Hj. lia.
Qed.

(** A summary is produced only when every date has its code, its two
    temperatures and its rain chance; it is then the heading followed by
    exactly one line per date.  (A list shorter than the dates never gives
    a shorter summary: it gives the placeholder.) *)
Theorem summary_has_one_line_per_date (city : pystr) (days : Z) (s : pystr) :
  weather_md_try W city days = ret s ->
  exists w ds ls,
    get_weather W city days = ret w
    /\ py_iter (w_dates w) = ret ds
    /\ s = join_nl (weather_heading (w_label w) :: ls)
    /\ length ls = length ds
    /\ forall j, (j < length ds)%nat -> day_is_complete w j.
Proof.
  unfold weather_md_try. intros H.
  apply bind_ret_inv in H as (w & Hw & H).
  apply bind_ret_inv in H as (ds & Hds & H).
  apply bind_ret_inv in H as (ls & Hls & H).
  injection H as <-.
  destruct (weather_lines_complete _ _ _ _ Hls) as [Hlen Hdays].
  by exists w, ds, ls.
Qed.

(** When the geocoding request itself fails, or the service answers with
    an error status, [weather_md] returns the placeholder with the text of
    that exception. *)
Theorem network_failure_is_reported (city : pystr) (days : Z) (e : exn) :
  geocode_request W city = raise e
  \/ (exists r, geocode_request W city = ret r /\ raise_for_status r = raise e) ->
  is_Exception e = true ->
  weather_md W city days = ret (FETCH_FAILED ++ exn_str W e).
Proof.
  unfold geocode_request. intros Hfail He.
  assert (Hg : geocode W city = raise e).
  { unfold geocode. destruct Hfail as [-> | (r & -> & Hst)]; [done|].
    by rewrite bind_ret_l, Hst. }
  unfold weather_md, weather_md_try, get_weather. rewrite Hg.
  cbn [bind raise]. by rewrite He.
Qed.

End WeatherMore.

Section WeatherMoreExamples.
Import Py Dyn Weather WeatherShape.

Lemma unknown_city_is_reported_witness :
  geocode_request world_city_not_found (lit "Atlantis")
  = ret (ok_response (JDict [(lit "generationtime_ms", JInt 1)]))
  /\ weather_md world_city_not_found (lit "Atlantis") 3
     = ret (FETCH_FAILED ++ lit "City not found").
Proof.
  split; [reflexivity|].
  exact (proj2 (unknown_city_is_reported world_city_not_found
                  (lit "Atlantis") 3 _ _ eq_refl eq_refl eq_refl eq_refl)).
Defined.

Lemma geocode_returns_first_result_witness :
  geocode world_two_days (lit "Pune")
  = ret (JInt 18, JInt 73, lit "Pune, India").
Proof.
  exact (geocode_returns_first_result world_two_days (lit "Pune") _ _ _ _
           _ _ _ eq_refl eq_refl eq_refl eq_refl eq_refl eq_refl eq_refl).
Defined.

Lemma geocode_missing_key_witness :
  geocode world_no_latitude (lit "Pune")
  = raise (KeyError (JStr (lit "latitude"))).
Proof.
  exact (geocode_missing_key world_no_latitude (lit "Pune") _ _ _ _
           eq_refl eq_refl eq_refl eq_refl eq_refl).
Defined.

Lemma summary_has_one_line_per_date_witness :
  exists s w ds ls,
    weather_md_try world_two_days (lit "Pune") 2 = ret s
    /\ get_weather world_two_days (lit "Pune") 2 = ret w
    /\ py_iter (w_dates w) = ret ds
    /\ s = join_nl (weather_heading (w_label w) :: ls)
    /\ length ls = length ds
    /\ forall j, (j < length ds)%nat -> day_is_complete w j.
Proof.
  eexists.
  destruct (summary_has_one_line_per_date world_two_days (lit "Pune") 2 _
              eq_refl) as (w & ds & ls & H).
  exists w, ds, ls. split; [reflexivity | exact H].
Defined.

Lemma network_failure_is_reported_witness :
  is_Exception (External true (lit "Connection refused")) = true
  /\ weather_md world_offline (lit "Pune") 2
     = ret (FETCH_FAILED ++ lit "Connection refused").
Proof.
  split; [reflexivity|].
  exact (network_failure_is_reported world_offline (lit "Pune") 2
           (External true (lit "Connection refused")) (or_introl eq_refl)
           eq_refl).
Defined.

End WeatherMoreExamples.

(** ** What the page and the Weather block show *)

Section Shown.
Import Py Dyn Weather Pdf App.

Lemma weather_body_skips_hashless (a b : pystr) :
  HASH ∉ a -> weather_body (a ++ b) = a ++ weather_body b.
Proof.
  induction a as [|c a IH]; intros Ha; [done|].
  apply not_elem_of_cons in Ha as [Hc Ha].
  change ((c :: a) ++ b) with (c :: (a ++ b)).
  rewrite weather_body_other; [by rewrite IH|].
  change (lit "### ") with [35; 35; 35; 32]%N. cbn [startswith].
  unfold HASH in Hc. destruct (N.eqb_spec 35 c) as [<-|_]; done.
Qed.

(** The failure placeholder is the body of the Weather block as it is,
    when the text of the exception does not contain ["### "]. *)
Theorem placeholder_is_rendered_verbatim (msg : pystr) :
  contains msg (lit "### ") = false ->
  weather_body (FETCH_FAILED ++ msg) = FETCH_FAILED ++ msg.
Proof.
  intros Hmsg. rewrite weather_body_skips_hashless.
  - by rewrite weather_body_unchanged.
  - vm_compute. intros H. by repeat (inversion H as [|? ? ? H']; clear H;
      rename H' into H; subst).
Qed.

Lemma placeholder_is_rendered_verbatim_witness :
  contains (lit "City not found") (lit "### ") = false
  /\ weather_body (FETCH_FAILED ++ lit "City not found")
     = FETCH_FAILED ++ lit "City not found".
Proof.
  split; [reflexivity|].
  exact (placeholder_is_rendered_verbatim (lit "City not found") eq_refl).
Defined.

(** The summary of [weather_md] loses its heading marker and nothing else,
    when neither the label nor the lines contain ["### "]. *)
Theorem summary_loses_only_its_marker (label tail : pystr) :
  contains (label ++ tail) (lit "### ") = false ->
  weather_body (weather_heading label ++ tail)
  = drop 4 (weather_heading label) ++ tail.
Proof.
  intros H. unfold weather_heading.
  rewrite <- !app_assoc.
  change (weather_body (lit "### " ++ ?x)) with (weather_body (lit "### " ++ x)).
  rewrite weather_body_marker.
  change (drop 4 (lit "### " ++ ?x)) with x.
  rewrite (app_assoc [SUN_SMALL_CLOUD]), (app_assoc _ [EM_DASH]),
    (app_assoc _ (lit " ")).
  rewrite weather_body_skips_hashless.
  - rewrite weather_body_unchanged by done. by rewrite <- !app_assoc.
  - vm_compute. intros H'. by repeat (inversion H' as [|? ? ? H'']; clear H';
      rename H'' into H'; subst).
Qed.

Lemma summary_loses_only_its_marker_witness :
  contains (lit "Pune, India" ++ LF :: lit "- **2026-11-04**") (lit "### ")
  = false
  /\ weather_body (weather_heading (lit "Pune, India")
                   ++ LF :: lit "- **2026-11-04**")
     = drop 4 (weather_heading (lit "Pune, India"))
       ++ LF :: lit "- **2026-11-04**".
Proof.
  split; [reflexivity|].
  exact (summary_loses_only_its_marker (lit "Pune, India")
           (LF :: lit "- **2026-11-04**") eq_refl).
Defined.

Lemma summary_not_flagged (label : pystr) (ls : list pystr) :
  startswith (join_nl (weather_heading label :: ls)) FETCH_FAILED_SHOWN = false.
Proof. by destruct ls. Qed.

Lemma placeholder_flagged (msg : pystr) :
  startswith (FETCH_FAILED ++ msg) FETCH_FAILED_SHOWN = true.
Proof.
  change FETCH_FAILED with (FETCH_FAILED_SHOWN ++ lit ": ").
  rewrite <- app_assoc. apply startswith_app.
Qed.

(** The page decides by the first characters of the text, and it decides
    right: when [weather_md] returns, the card with the text is shown
    exactly when the [try] body returned that text, and the notice that
    the weather could not be fetched exactly when the body raised. *)
Theorem weather_card_shown_iff_fetched (W : World) (city : pystr) (days : Z)
    (wtext : pystr) :
  weather_md W city days = ret wtext ->
  (weather_md_try W city days = ret wtext
   /\ weather_column wtext
      = [ markdown 2 WEATHER_HEADING;
          markdown 2 (lit "<div class='card small'>" ++ wtext ++ lit "</div>") ])
  \/ ((exists e, weather_md_try W city days = raise e)
      /\ weather_column wtext
         = [ markdown 2 WEATHER_HEADING;
             info 2 (lit "Weather data could not be fetched for this city.") ]).
Proof.
  unfold weather_md. intros H.
  destruct (weather_md_try W city days) as [r|e] eqn:Htry.
  - assert (wtext = r) as -> by (unfold ret in H; congruence).
    left. split; [done|].
    unfold weather_md_try in Htry.
    apply bind_ret_inv in Htry as (w & Hw & Htry).
    apply bind_ret_inv in Htry as (ds & Hds & Htry).
    apply bind_ret_inv in Htry as (ls & Hls & Htry).
    assert (Hr : r = join_nl (weather_heading (w_label w) :: ls))
      by (unfold ret in Htry; congruence).
    unfold weather_column. by rewrite Hr, summary_not_flagged.
  - destruct (is_Exception e); [|done].
    assert (Hw : wtext = FETCH_FAILED ++ exn_str W e)
      by (unfold ret in H; congruence).
    right. split; [by exists e|].
    unfold weather_column. by rewrite Hw, placeholder_flagged.
Qed.

Lemma weather_card_shown_iff_fetched_witness :
  weather_md world_offline (lit "Pune") 2
  = ret (FETCH_FAILED ++ lit "Connection refused")
  /\ weather_column (FETCH_FAILED ++ lit "Connection refused")
     = [ markdown 2 WEATHER_HEADING;
         info 2 (lit "Weather data could not be fetched for this city.") ].
Proof.
  split; [reflexivity|].
  destruct (weather_card_shown_iff_fetched world_offline (lit "Pune") 2
              (FETCH_FAILED ++ lit "Connection refused") eq_refl)
    as [[H _] | [_ H]]; [discriminate H | exact H].
Defined.

End Shown.

(** ** The inputs of the page (app.py, lines 219-250) *)

Section Inputs.
Import Py Dyn Weather Pdf App.

Lemma lstrip_by_split (f : char -> bool) (s : pystr) :
  exists p, s = p ++ lstrip_by f s /\ Forall (fun c => f c = true) p.
Proof.
  induction s as [|c s (p & Hp & Hf)]; [by exists []|]. simpl.
  destruct (f c) eqn:Hc.
  - exists (c :: p). split; [simpl; by rewrite <- Hp | by constructor].
  - by exists [].
Qed.

Lemma lstrip_by_head (f : char -> bool) (s : pystr) :
  head (List.map f (lstrip_by f s)) <> Some true.
Proof.
  induction s as [|c s IH]; [done|]. simpl.
  destruct (f c) eqn:Hc; [done|]. simpl. by rewrite Hc.
Qed.

Lemma lstrip_by_fixed (f : char -> bool) (s : pystr) :
  head (List.map f s) <> Some true -> lstrip_by f s = s.
Proof. destruct s as [|c s]; [done|]. simpl. by destruct (f c). Qed.

Lemma lstrip_by_all (f : char -> bool) (s : pystr) :
  Forall (fun c => f c = true) s -> lstrip_by f s = [].
Proof. induction 1 as [|c s Hc _ IH]; [done|]. simpl. by rewrite Hc. Qed.

(** What [strip] returns is a piece of the text: some white space before
    it and some after it were removed. *)
Lemma strip_split (s : pystr) :
  exists p q, s = p ++ strip s ++ q
              /\ Forall (fun c => isspace c = true) p
              /\ Forall (fun c => isspace c = true) q.
Proof.
  unfold strip, rstrip_by.
  destruct (lstrip_by_split isspace s) as (p & Hp & Hfp).
  destruct (lstrip_by_split isspace (rev (lstrip_by isspace s)))
    as (q & Hq & Hfq).
  exists p, (rev q). split; [|split; [done | by apply Forall_rev]].
  rewrite Hp at 1. f_equal.
  rewrite <- (rev_involutive (lstrip_by isspace s)) at 1.
  rewrite Hq at 1. by rewrite rev_app_distr.
Qed.

Lemma strip_head (s : pystr) : head (List.map isspace (strip s)) <> Some true.
Proof.
  destruct (strip_split s) as (p & q & Hs & _ & _).
  unfold strip, rstrip_by in *.
  set (t := lstrip_by isspace s) in *.
  destruct (lstrip_by_split isspace (rev t)) as (q' & Hq' & _).
  assert (Ht : t = rev (lstrip_by isspace (rev t)) ++ rev q').
  { rewrite <- (rev_involutive t) at 1. rewrite Hq' at 1.
    by rewrite rev_app_distr. }
  pose proof (lstrip_by_head isspace s) as Hh. fold t in Hh.
  destruct (rev (lstrip_by isspace (rev t))) as [|c u]; [done|].
  rewrite Ht in Hh. by simpl in *.
Qed.

(** [s.strip().strip() == s.strip()] *)
Lemma strip_idempotent (s : pystr) : strip (strip s) = strip s.
Proof.
  unfold strip at 1. rewrite (lstrip_by_fixed isspace (strip s))
    by apply strip_head.
  unfold rstrip_by, strip, rstrip_by. rewrite rev_involutive.
  rewrite (lstrip_by_fixed isspace (lstrip_by isspace _)); [done|].
  apply lstrip_by_head.
Qed.

Lemma strip_all_space (s : pystr) :
  Forall (fun c => isspace c = true) s -> strip s = [].
Proof. intros H. unfold strip. by rewrite lstrip_by_all. Qed.

Lemma split_char_pieces (sep : char) (s : pystr) :
  Forall (fun piece => (sep ∉ piece) /\ (piece ⊆ s)) (split_char sep s).
Proof.
  induction s as [|c s IH]; simpl.
  - apply Forall_cons_2; [|apply Forall_nil_2].
    split; [apply not_elem_of_nil | done].
  - assert (IH' : Forall (fun piece => (sep ∉ piece) /\ (piece ⊆ c :: s))
                         (split_char sep s)).
    { eapply Forall_impl; [exact IH|]. intros piece [H1 H2].
      split; [done|]. intros x Hx. apply elem_of_cons. right. by apply H2. }
    destruct (N.eqb_spec c sep) as [->|Hne].
    + apply Forall_cons_2; [|done].
      split; [apply not_elem_of_nil|]. intros x Hx. by apply not_elem_of_nil in Hx.
    + destruct (split_char sep s) as [|l ls].
      * apply Forall_cons_2; [|apply Forall_nil_2]. split.
        -- intros H. apply list_elem_of_singleton in H. by subst.
        -- intros x Hx. apply list_elem_of_singleton in Hx as ->.
           apply elem_of_cons. by left.
      * apply Forall_cons in IH' as [[H1 H2] Hrest].
        apply Forall_cons_2; [|done]. split.
        -- apply not_elem_of_cons. split; [by intros ->|done].
        -- intros x Hx. apply elem_of_cons in Hx as [->|Hx];
             [apply elem_of_cons; by left | by apply H2].
Qed.

(** Every interest the page passes on is a non-empty text without white
    space at either end and without a comma. *)
Theorem parsed_interests_are_trimmed (interests_csv : pystr) :
  Forall (fun i => i <> [] /\ strip i = i /\ COMMA ∉ i)
         (parse_interests interests_csv).
Proof.
  unfold parse_interests. apply List.Forall_map.
  apply Forall_forall. intros piece Hin.
  apply list_elem_of_In, List.filter_In in Hin as [Hin Hne].
  pose proof (split_char_pieces COMMA interests_csv) as Hp.
  rewrite Forall_forall in Hp.
  destruct (Hp piece) as [Hc _]; [by apply list_elem_of_In|].
  split; [by destruct (strip piece) | split; [apply strip_idempotent|]].
  destruct (strip_split piece) as (p & q & Hs & _ & _).
  intros Hcomma. apply Hc. rewrite Hs, !elem_of_app. auto.
Qed.

(** An interests field of nothing but white space and commas gives no
    interest: the prompt then asks for the default interests, and the PDF,
    the wrapper making one segment of the dash, has the dash drawn right
    under the title "Interests". *)
Theorem blank_interests_fall_back (E : Env) (interests_csv city : pystr)
    (days : Z) (itinerary_md weather_text now : pystr) :
  Forall (fun c => isspace c = true \/ c = COMMA) interests_csv ->
  simpleSplit E [EM_DASH] Helvetica 11 (maxw E) = [[EM_DASH]] ->
  parse_interests interests_csv = []
  /\ prompt_interests (parse_interests interests_csv) = DEFAULT_INTERESTS
  /\ interests_body (join (lit ", ") (parse_interests interests_csv))
     = [EM_DASH]
  /\ exists brk y rest,
       render_pdf E city days (join (lit ", ") (parse_interests interests_csv))
         itinerary_md weather_text now
       = header E city days now
         ++ block_head E Helvetica 11 (lit "Interests") (top E - 18 - 12)%Q
         ++ brk ++ drawString (left E) y [EM_DASH] :: rest
       /\ ((brk = [] /\ y = (top E - 18 - 12 - 12 - line_h)%Q)
           \/ (brk = [showPage; setFont Helvetica 11] /\ y = top E)).
Proof.
  intros Hblank Hseg.
  assert (H : parse_interests interests_csv = []).
  { unfold parse_interests.
    pose proof (split_char_pieces COMMA interests_csv) as Hp.
    induction Hp as [|piece ps [Hc Hsub] _ IH]; [done|].
    simpl. rewrite strip_all_space; [exact IH|].
    apply Forall_forall. intros c Hin.
    rewrite Forall_forall in Hblank.
    destruct (Hblank c (Hsub c Hin)) as [Hs | ->]; [done | by destruct Hc]. }
  rewrite H. split; [done|]. split; [done|]. split; [done|].
  by apply render_pdf_empty_interests.
Qed.

Lemma blank_interests_fall_back_witness :
  Forall (fun c => isspace c = true \/ c = COMMA) (lit " , ,, ")
  /\ simpleSplit env0 [EM_DASH] Helvetica 11 (maxw env0) = [[EM_DASH]]
  /\ parse_interests (lit " , ,, ") = []
  /\ exists brk y rest,
       render_pdf env0 (lit "paris") 3
         (join (lit ", ") (parse_interests (lit " , ,, "))) two_lines
         (lit "sunny") (lit "04 Nov 2026, 10:00 AM")
       = header env0 (lit "paris") 3 (lit "04 Nov 2026, 10:00 AM")
         ++ block_head env0 Helvetica 11 (lit "Interests")
              (top env0 - 18 - 12)%Q
         ++ brk ++ drawString (left env0) y [EM_DASH] :: rest
       /\ ((brk = [] /\ y = (top env0 - 18 - 12 - 12 - line_h)%Q)
           \/ (brk = [showPage; setFont Helvetica 11] /\ y = top env0)).
Proof.
  assert (H : Forall (fun c => isspace c = true \/ c = COMMA) (lit " , ,, ")).
  { repeat constructor; (by left) || (by right). }
  split; [exact H|]. split; [reflexivity|].
  destruct (blank_interests_fall_back env0 (lit " , ,, ") (lit "paris") 3
              two_lines (lit "sunny") (lit "04 Nov 2026, 10:00 AM") H eq_refl)
    as (Hp & _ & _ & Hlog).
  split; [exact Hp | exact Hlog].
Defined.

End Inputs.

(** ** Bullets with plain indentation *)

Section BulletsMore.
Import Py Pdf Layout.

Let marks : pystr := [STAR; DASH; BULLET; SPACE].

Lemma lstrip_by_snoc (f : char -> bool) (a : pystr) (c : char) :
  f c = false -> lstrip_by f (a ++ [c]) = lstrip_by f a ++ [c].
Proof.
  intros Hc. induction a as [|x a IH]; simpl; [by rewrite Hc|].
  by destruct (f x).
Qed.

Lemma rstrip_by_cons (f : char -> bool) (c : char) (t : pystr) :
  f c = false -> rstrip_by f (c :: t) = c :: rstrip_by f t.
Proof.
  intros Hc. unfold rstrip_by. simpl.
  by rewrite lstrip_by_snoc, rev_app_distr.
Qed.

Lemma strip_cons (c : char) (t : pystr) :
  isspace c = false -> strip (c :: t) = c :: rstrip_by isspace t.
Proof. intros Hc. unfold strip. simpl. rewrite Hc. by apply rstrip_by_cons. Qed.

Lemma plain_text_heads (rest : pystr) :
  plain_text rest ->
  head (List.map (inset marks) rest) <> Some true
  /\ head (List.map isspace rest) <> Some true.
Proof.
  destruct rest as [|c r]; [done|]. intros [H1 H2].
  cbn [List.map head]. unfold marks. rewrite H1, H2. by split.
Qed.

Lemma strip_plain_text (rest : pystr) :
  plain_text rest -> plain_text (strip rest).
Proof.
  destruct rest as [|c r]; [done|]. intros [H1 H2].
  by rewrite strip_cons.
Qed.

(** In bullet mode a marked line made of markers and plain spaces followed
    by a plain text becomes the glyph, one space and the text without its
    trailing white space; and the rewriting is stable: applied to its own
    result it changes nothing. *)
Theorem plain_bullets_are_normalised_once (pre rest : pystr) :
  Forall (fun c => inset [STAR; DASH; BULLET; SPACE] c = true) pre ->
  plain_text rest ->
  is_bullet_line (pre ++ rest) = true ->
  prepare_line true (pre ++ rest) = [BULLET; SPACE] ++ strip rest
  /\ prepare_line true (prepare_line true (pre ++ rest))
     = prepare_line true (pre ++ rest).
Proof.
  intros Hpre Hrest Hmark.
  destruct (plain_text_heads rest Hrest) as [Hm Hs].
  assert (H1 : prepare_line true (pre ++ rest) = [BULLET; SPACE] ++ strip rest).
  { unfold prepare_line. rewrite Hmark. cbn [andb].
    rewrite (bullet_line_plain_indent pre rest) by done.
    unfold strip. by rewrite (lstrip_by_fixed isspace rest). }
  split; [exact H1|]. rewrite H1.
  pose proof (strip_plain_text rest Hrest) as Hx.
  destruct (plain_text_heads _ Hx) as [Hxm Hxs].
  assert (Hmark2 : is_bullet_line ([BULLET; SPACE] ++ strip rest) = true).
  { unfold is_bullet_line. cbn [app]. by rewrite strip_cons. }
  unfold prepare_line. rewrite Hmark2, andb_true_l.
  etransitivity;
    [apply (bullet_line_plain_indent [BULLET; SPACE] (strip rest));
       [by repeat constructor | done | done] |].
  f_equal. pose proof (strip_idempotent rest) as Hid.
  unfold strip at 1 in Hid.
  by rewrite (lstrip_by_fixed isspace (strip rest)) in Hid.
Qed.

Lemma plain_bullets_are_normalised_once_witness :
  Forall (fun c => inset [STAR; DASH; BULLET; SPACE] c = true) (lit "  * ")
  /\ plain_text (lit "Louvre at 9 ")
  /\ is_bullet_line (lit "  * " ++ lit "Louvre at 9 ") = true
  /\ prepare_line true (lit "  * " ++ lit "Louvre at 9 ")
     = [BULLET; SPACE] ++ lit "Louvre at 9".
Proof.
  assert (H1 : Forall (fun c => inset [STAR; DASH; BULLET; SPACE] c = true)
                 (lit "  * ")) by (by repeat constructor).
  assert (H2 : plain_text (lit "Louvre at 9 ")) by done.
  assert (H3 : is_bullet_line (lit "  * " ++ lit "Louvre at 9 ") = true)
    by reflexivity.
  split; [exact H1|]. split; [exact H2|]. split; [exact H3|].
  exact (proj1 (plain_bullets_are_normalised_once _ _ H1 H2 H3)).
Defined.

End BulletsMore.

(** ** Pages *)

Section Pages.
Import Py Pdf Layout.
Local Open Scope Q_scope.
Context (E : Env).

Lemma draw_block_breaks (font : pystr) (size : Q) (bullet : bool)
    (title body : pystr) (y : Q) :
  page_breaks (snd (draw_block E font size bullet title body y))
  = page_breaks (snd (write E font size bullet body (y - 12))).
Proof. reflexivity. Qed.

(** A document has at least one page and at most one page more than its
    bodies have segments. *)
Theorem render_pdf_page_count (city : pystr) (days : Z)
    (interests_text itinerary_md weather_text now : pystr) :
  (1 <= page_breaks
          (render_pdf E city days interests_text itinerary_md weather_text now)
   <= 1 + document_segments E interests_text itinerary_md weather_text)%nat.
Proof.
  unfold render_pdf, document_segments. cbv zeta.
  rewrite !page_breaks_app, !draw_block_breaks.
  change (page_breaks (header E city days now)) with 0%nat.
  change (page_breaks [showPage; save]) with 1%nat.
  pose proof (write_breaks E Helvetica 11 false
                (interests_body interests_text)) as H1.
  pose proof (write_breaks E Helvetica 11 false
                (weather_body weather_text)) as H2.
  pose proof (write_breaks E Helvetica 11 true
                (itinerary_body itinerary_md)) as H3.
  match goal with
  | |- context [page_breaks (snd (write E Helvetica 11 false
                  (interests_body interests_text) ?y))] =>
      specialize (H1 y)
  end.
  match goal with
  | |- context [page_breaks (snd (write E Helvetica 11 false
                  (weather_body weather_text) ?y))] =>
      specialize (H2 y)
  end.
  match goal with
  | |- context [page_breaks (snd (write E Helvetica 11 true
                  (itinerary_body itinerary_md) ?y))] =>
      specialize (H3 y)
  end.
  lia.
Qed.

(** A document whose segments all have room under the three titles is one
    page: with N segments in all, it is enough that the top margin is
    82 + 14 N points above the bottom margin. *)
Theorem short_document_is_one_page (city : pystr) (days : Z)
    (interests_text itinerary_md weather_text now : pystr) :
  bottom E
  <= top E - 82
     - line_h * inject_Z (Z.of_nat
         (document_segments E interests_text itinerary_md weather_text)) ->
  page_breaks
    (render_pdf E city days interests_text itinerary_md weather_text now)
  = 1%nat.
Proof.
  unfold document_segments. intros Hroom.
  set (n1 := length (body_segments E Helvetica 11 false
                       (interests_body interests_text))) in *.
  set (n2 := length (body_segments E Helvetica 11 false
                       (weather_body weather_text))) in *.
  set (n3 := length (body_segments E Helvetica 11 true
                       (itinerary_body itinerary_md))) in *.
  rewrite !Nat2Z.inj_add, !inject_Z_plus in Hroom.
  pose proof (inject_nat_nonneg n1) as Hn1.
  pose proof (inject_nat_nonneg n2) as Hn2.
  pose proof (inject_nat_nonneg n3) as Hn3.
  unfold line_h in Hroom.
  unfold render_pdf. cbv zeta.
  rewrite !page_breaks_app, !draw_block_breaks.
  change (page_breaks (header E city days now)) with 0%nat.
  change (page_breaks [showPage; save]) with 1%nat.
  unfold draw_block. cbn [fst].
  destruct (write_fits E Helvetica 11 false
              (interests_body interests_text) (top E - 18 - 12 - 12))
    as [C1 B1].
  { fold n1. unfold line_h. lra. }
  fold n1 in C1. unfold line_h in C1.
  destruct (write_fits E Helvetica 11 false
              (weather_body weather_text)
              (fst (write E Helvetica 11 false
                      (interests_body interests_text) (top E - 18 - 12 - 12))
               - 8 - 12))
    as [C2 B2].
  { fold n2. unfold line_h. lra. }
  fold n2 in C2. unfold line_h in C2.
  destruct (write_fits E Helvetica 11 true
              (itinerary_body itinerary_md)
              (fst (write E Helvetica 11 false (weather_body weather_text)
                      (fst (write E Helvetica 11 false
                              (interests_body interests_text)
                              (top E - 18 - 12 - 12))
                       - 8 - 12))
               - 8 - 12))
    as [C3 B3].
  { fold n3. unfold line_h. lra. }
  by rewrite B1, B2, B3.
Qed.

End Pages.

Section PagesExample.
Import Py Pdf Layout.
Local Open Scope Q_scope.

Lemma short_document_is_one_page_witness :
  bottom env0
  <= top env0 - 82
     - line_h * inject_Z (Z.of_nat
         (document_segments env0 (lit "art") two_lines (lit "sunny")))
  /\ page_breaks
       (render_pdf env0 (lit "paris") 3 (lit "art") two_lines (lit "sunny")
          (lit "04 Nov 2026, 10:00 AM"))
     = 1%nat.
Proof.
  assert (H : bottom env0
    <= top env0 - 82
       - line_h * inject_Z (Z.of_nat
           (document_segments env0 (lit "art") two_lines (lit "sunny"))))
    by (vm_compute; discriminate).
  split; [exact H|].
  exact (short_document_is_one_page env0 (lit "paris") 3 (lit "art")
           two_lines (lit "sunny") (lit "04 Nov 2026, 10:00 AM") H).
Defined.

End PagesExample.

(** ** The download (app.py, lines 229-257) *)

Section Download.
Import Py Dyn Weather Pdf App.

Lemma replace_space_no_space (s : pystr) :
  SPACE ∉ replace s [SPACE] [UNDERSCORE].
Proof.
  unfold replace. induction s as [|c s IH]; [apply not_elem_of_nil|].
  cbn [replace_from startswith length Nat.pred].
  destruct (N.eqb_spec SPACE c) as [<-|Hne]; cbn [andb app].
  - apply not_elem_of_cons. by split.
  - apply not_elem_of_cons. split; [done | exact IH].
Qed.

Lemma uint_no_space (d : Decimal.uint) :
  SPACE ∉ lit (NilEmpty.string_of_uint d).
Proof.
  induction d; cbn; [apply not_elem_of_nil|..];
    (apply not_elem_of_cons; split; [done | exact IHd]).
Qed.

Lemma str_of_int_no_space (n : Z) : SPACE ∉ str_of_int n.
Proof.
  unfold str_of_int. destruct (Z.to_int n) as [d|d]; cbn.
  - apply uint_no_space.
  - apply not_elem_of_cons. split; [done | apply uint_no_space].
Qed.

Lemma lower_ascii_no_space (s : pystr) :
  SPACE ∉ s -> SPACE ∉ lower_ascii s.
Proof.
  induction s as [|c s IH]; intros Hs; [done|].
  apply not_elem_of_cons in Hs as [Hc Hs]. cbn.
  apply not_elem_of_cons. split; [|by apply IH].
  unfold is_upper, SPACE in *. destruct ((65 <=? c)%N && (c <=? 90)%N) eqn:Hu;
    [|done].
  apply andb_true_iff in Hu as [H1 H2].
  apply N.leb_le in H1. lia.
Qed.

(** The name of the downloaded file never contains a space, provided
    lower-casing introduces none: the spaces left inside the trimmed city
    have become underscores. *)
Theorem file_name_has_no_space (SV : Services) (city : pystr) (days : Z) :
  (forall s, SPACE ∉ s -> SPACE ∉ lower SV s) ->
  SPACE ∉ file_name_of SV city days.
Proof.
  intros Hlower. unfold file_name_of.
  rewrite !not_elem_of_app. repeat split.
  - by vm_compute; intros H; repeat (inversion H as [|? ? ? H']; clear H;
      rename H' into H; subst).
  - apply Hlower, replace_space_no_space.
  - by intros H; apply list_elem_of_singleton in H.
  - apply str_of_int_no_space.
  - by vm_compute; intros H; repeat (inversion H as [|? ? ? H']; clear H;
      rename H' into H; subst).
Qed.

Lemma file_name_has_no_space_witness :
  (forall s, SPACE ∉ s -> SPACE ∉ lower services0 s)
  /\ (SPACE ∉ file_name_of services0 (lit " New York ") 3)
  /\ file_name_of services0 (lit " New York ") 3 = lit "itinerary_new_york_3d.pdf".
Proof.
  split; [exact lower_ascii_no_space|].
  split; [|reflexivity].
  exact (file_name_has_no_space services0 (lit " New York ") 3
           lower_ascii_no_space).
Defined.

(** With a city that is not blank, and services that raise instances of
    [Exception] only: when the itinerary call raises, the page raises the
    same exception; when it returns, the page always ends with the download
    button, whose PDF is built from the trimmed city, the parsed interests,
    the itinerary and whatever text [weather_md] returned, so that a
    weather failure never blocks the PDF. *)
Theorem page_offers_the_pdf (SV : Services) (city interests_csv : pystr)
    (days : Z) :
  nonempty (strip city) = true ->
  raises_Exceptions (world SV) ->
  match make_itinerary SV (strip city) (parse_interests interests_csv) days
  with
  | inr e => page SV true city interests_csv days = raise e
  | inl itinerary =>
      exists wtext,
        weather_md (world SV) (strip city) days = ret wtext
        /\ page SV true city interests_csv days
           = ret ([ markdown 1 ITINERARY_HEADING;
                    markdown 1 (lit "<div class='card'>" ++ itinerary
                                ++ lit "</div>") ]
                  ++ weather_column wtext
                  ++ [ download_button
                         ([DOWN_ARROW; VS16] ++ lit " Download PDF")
                         (render_pdf (env SV) (strip city) days
                            (join (lit ", ") (parse_interests interests_csv))
                            itinerary wtext (clock SV))
                         (file_name_of SV city days)
                         (lit "application/pdf") ])
  end.
Proof.
  intros Hcity HW. unfold page. rewrite Hcity. cbn [negb].
  destruct (make_itinerary SV (strip city) (parse_interests interests_csv)
              days) as [itinerary|e]; [|done].
  cbn [bind].
  pose proof (roE_weather_md_try (world SV) HW (strip city) days) as Hro.
  unfold weather_md.
  destruct (weather_md_try (world SV) (strip city) days) as [r|e].
  - exists r. by split.
  - rewrite (Hro e eq_refl). eexists. by split.
Qed.

Lemma world_two_days_raises_Exceptions : raises_Exceptions world_two_days.
Proof.
  repeat split; intros; intros e He; simpl in *;
    repeat case_decide; simplify_eq/=; done.
Qed.

Lemma page_offers_the_pdf_witness :
  nonempty (strip (lit " Pune ")) = true
  /\ raises_Exceptions (world services_two_days)
  /\ exists shown data,
       page services_two_days true (lit " Pune ") (lit "forts, food") 2
       = ret (shown ++ [download_button
                          ([DOWN_ARROW; VS16] ++ lit " Download PDF") data
                          (lit "itinerary_pune_2d.pdf")
                          (lit "application/pdf")]).
Proof.
  split; [reflexivity|]. split; [exact world_two_days_raises_Exceptions|].
  pose proof (page_offers_the_pdf services_two_days (lit " Pune ")
                (lit "forts, food") 2 eq_refl
                world_two_days_raises_Exceptions) as H.
  destruct H as (wtext & _ & H). cbv beta iota in H.
  eexists _, _. rewrite H. rewrite app_assoc. reflexivity.
Defined.

End Download.
